(** * imagerie/models.py: taxonomy names, predictions and the CNN life cycle

    A shallow embedding of [DjangoProjects/imagerie/models.py].

    - A Python [str] is a list of Unicode code points ([N]).
    - A [DecimalField(max_digits=4, decimal_places=3)] is an integer number
      of thousandths ([Z]).
    - A Python call either returns or raises: [PyResult].
    - Methods that assign to [self] or touch the file system thread the
      object and the world explicitly (the monad [M]). *)

From Stdlib Require Import ZArith NArith QArith List Sorted String Ascii DecimalString DecimalZ Lia.
From stdpp Require Import base list gmap.

Set Default Proof Using "Type".
Local Open Scope Z_scope.

(** ** Python strings *)

Module Str.

(** A [str] is a sequence of code points. *)
Abbreviation str := (list N).

(** A literal, written with Rocq's byte strings (ASCII text only). *)
Definition lit (s : string) : str :=
  map N_of_ascii (list_ascii_of_string s).

(** [str.isspace] on one character: the code points CPython's
    [_PyUnicode_IsWhitespace] accepts. *)
Definition isspace (c : N) : bool :=
  (((9 <=? c) && (c <=? 13)) || ((28 <=? c) && (c <=? 32))
   || (c =? 133) || (c =? 160) || (c =? 5760)
   || ((8192 <=? c) && (c <=? 8202))
   || (c =? 8232) || (c =? 8233) || (c =? 8239) || (c =? 8287)
   || (c =? 12288))%N.

(** The end of a run of non-blank characters: the run, if any, becomes a
    token. [cur] holds the run read so far, last character first. *)
Definition flush (cur : str) (toks : list str) : list str :=
  match cur with
  | [] => toks
  | _ :: _ => rev cur :: toks
  end.

(** [s.split()] with no argument: tokens are the maximal runs of
    non-blank characters; leading, trailing and repeated blanks produce
    no empty token. *)
Fixpoint split_from (cur : str) (s : str) : list str :=
  match s with
  | [] => flush cur []
  | c :: s' =>
      if isspace c then flush cur (split_from [] s')
      else split_from (c :: cur) s'
  end.

Definition split (s : str) : list str := split_from [] s.

(** [sep.join(parts)] *)
Fixpoint join (sep : str) (parts : list str) : str :=
  match parts with
  | [] => []
  | [p] => p
  | p :: ps => p ++ sep ++ join sep ps
  end.

(** [str(n)] for an [int], as used by an f-string field. *)
Definition of_int (n : Z) : str :=
  lit (NilEmpty.string_of_int (Z.to_int n)).

(** [s.startswith(p)] *)
Fixpoint startswith (p s : str) : bool :=
  match p, s with
  | [], _ => true
  | a :: p', b :: s' => (a =? b)%N && startswith p' s'
  | _ :: _, [] => false
  end.

(** [s.endswith(p)] *)
Definition endswith (p s : str) : bool := startswith (rev p) (rev s).

(** A token: at least one character, none of them blank. *)
Definition is_token (t : str) : Prop :=
  t <> [] /\ Forall (fun c => isspace c = false) t.

(** A blank string: empty, or whitespace only. *)
Definition is_blank (s : str) : Prop := Forall (fun c => isspace c = true) s.

(** The whitespace-separated tokens of a string, stated without reference
    to the scanning loop: blanks, then a token, then either the end or a
    blank followed by the rest. *)
Inductive Tokens : str -> list str -> Prop :=
| Tokens_blank s :
    is_blank s -> Tokens s []
| Tokens_last b t :
    is_blank b -> is_token t -> Tokens (b ++ t) [t]
| Tokens_more b t w s ts :
    is_blank b -> is_token t -> isspace w = true -> Tokens s ts ->
    Tokens (b ++ t ++ w :: s) (t :: ts).

End Str.

Import Str.

(** ** Results of Python calls *)

Inductive exn : Type :=
| Exception (msg : str)       (* [raise Exception(msg)] *)
| IndexError                  (* list index out of range *)
| AttributeError              (* attribute of [None] *)
| TypeError
| ValueError
| LibraryError (code : nat).  (* anything else raised inside a library call *)

Inductive PyResult (A : Type) : Type :=
| Ok (a : A)
| Raise (e : exn).
Arguments Ok {A} a.
Arguments Raise {A} e.

Definition returns {A} (r : PyResult A) : Prop := exists a, r = Ok a.
Definition raises {A} (r : PyResult A) : Prop := exists e, r = Raise e.

(** ** Taxonomy *)

Record RankTaxon : Type := mkRankTaxon {
  rank_id : Z;
  rank_name : str
}.

Record Taxon : Type := mkTaxon {
  tax_id : option Z;
  name : str;
  sup_taxon : option Z;
  rank : RankTaxon
}.

(** [xs[0]] *)
Definition item0 {A} (xs : list A) : PyResult A :=
  match xs with
  | [] => Raise IndexError
  | x :: _ => Ok x
  end.

(** The property [Taxon.clean_name]. *)
Definition clean_name (self : Taxon) : PyResult str :=
  if negb (rank_id (rank self) =? 8) then
    item0 (split (name self))
  else
    Ok (join (lit " ") (take 2 (split (name self)))).


(** ** Rows of the other tables *)

(** [Specie(Taxon)]: multi-table inheritance, the taxon plus two names. *)
Record Specie : Type := mkSpecie {
  specie_pk : Z;
  specie_taxon : Taxon;
  latin_name : str;
  vernacular_name : str
}.

(** [Image]; [SubmittedImage] adds no column. A value stands for an image
    that has a file: [image_path] is what [self.image.path] returns. For an
    image without a file Django raises [ValueError] at that attribute; such
    an image has no value of this type. *)
Record Image : Type := mkImage {
  image_pk : Z;
  image_path : str;             (* [self.image.path] *)
  content : Z;
  type : Z
}.

Definition SubmittedImage : Type := Image.

Record GroundTruthImage : Type := mkGroundTruthImage {
  gt_image : Image;
  gt_specie : option Z          (* [specie], nullable *)
}.

(** A [DecimalField(max_digits=4, decimal_places=3)], in thousandths. *)
Definition Decimal3 : Type := Z.

Record Prediction : Type := mkPrediction {
  prediction_pk : Z;
  prediction_cnn : Z;
  prediction_image : Z;
  prediction_specie : Z;
  confidence : Decimal3
}.

Record Class : Type := mkClass {
  class_pk : Z;
  pos : Z;
  class_cnn : Z;
  class_specie : option Z
}.

Record Database : Type := mkDatabase {
  species : list Specie;
  ground_truth_images : list GroundTruthImage;
  predictions : list Prediction;
  classes : list Class
}.

Record Annotation : Type := mkAnnotation { annotation_name : str }.

Record CNNArchitecture : Type := mkCNNArchitecture {
  architecture_name : str;
  optimizer : Annotation;
  loss : Annotation;
  model_code : str              (* [model_code.name] *)
}.

(** [datetime]: the fields the code reads. *)
Record DateTime : Type := mkDateTime {
  year : Z;
  month : Z;
  day : Z;
  hour : Z
}.

(** ** XML elements, as [xml.etree.ElementTree] hands them out *)

#[warnings="-register-all"]
Inductive Element : Type :=
| El (tag : str) (text : option str) (children : list Element).

Definition el_tag (e : Element) : str := let 'El t _ _ := e in t.
Definition el_text (e : Element) : option str := let 'El _ t _ := e in t.
Definition el_children (e : Element) : list Element := let 'El _ _ c := e in c.

(** [e.find(tag)]: the first direct child with that tag, or [None]. *)
Definition find (t : str) (e : Element) : option Element :=
  List.find (fun c => bool_decide (el_tag c = t)) (el_children e).

(** ** The world outside the process *)

(** The calls that leave the process, in the order they are made. *)
Inductive Event : Type :=
| RequestsGet (url : str)
| DbSaveTaxon (t : Taxon)
| CreateModel (code : str)
| ModelCompile (optimizer_name loss_name : str)
| LoadWeights (path : option str)
| Fit (epochs : Z)
| Evaluate
| Predict (images : list Image)
| OsMkdir (path : str)
| ModelSave (path : str)
| Imread (path : str).

(** Everything the module takes from libraries and settings. Each call may
    raise and may change the world. *)
Class Runtime : Type := {
  World : Type;
  Model : Type;                 (* [keras.models.Model] *)
  Score : Type;                 (* a Python or numpy float *)
  score_ltb : Score -> Score -> bool;
  MEDIA_ROOT : str;             (* [django.conf.settings.MEDIA_ROOT] *)
  int_of_str : option str -> PyResult Z;     (* the builtin [int] *)
  requests_get_content : str -> World -> PyResult (list N) * World;
  fromstring : list N -> PyResult Element;   (* [ElementTree.fromstring] *)
  django_save : Taxon -> World -> PyResult unit * World;
  create_model : str -> World -> PyResult Model * World;
  model_compile : Model -> str -> str -> World -> PyResult Model * World;
  load_weights : Model -> option str -> World -> PyResult Model * World;
  fit : Model -> option (list GroundTruthImage) -> option (list Z) -> Z ->
        World -> PyResult Model * World;
  evaluate : Model -> option (list GroundTruthImage) -> option (list Z) ->
             World -> PyResult (Score * Score) * World;
  predict : Model -> list Image -> World -> PyResult (list (list Score)) * World;
  os_mkdir : str -> World -> PyResult unit * World;
  model_save : Model -> str -> World -> PyResult unit * World;
  f32 : Type;                   (* [numpy.float32] *)
  astype_float32 : Z -> f32;    (* from a [uint8] sample *)
  f32_sub : f32 -> Q -> f32;    (* [x - c] for a decimal literal [c] *)
  imread_rgb : str -> World -> PyResult (list (list (list Z))) * World;
  pil_resize : list (list (list Z)) -> Z * Z -> PyResult (list (list (list Z)))
}.

(** ** Methods as state transformers *)

Record State `{Runtime} (Self : Type) : Type := mkState {
  self : Self;
  db : Database;
  world : World;
  trace : list Event
}.
Arguments mkState {_ _} _ _ _ _.
Arguments self {_ _} _.
Arguments db {_ _} _.
Arguments world {_ _} _.
Arguments trace {_ _} _.

Definition M `{Runtime} (Self A : Type) : Type :=
  State Self -> PyResult A * State Self.

Definition raise `{Runtime} {Self A} (e : exn) : M Self A :=
  fun st => (Raise e, st).

#[global] Instance M_ret `{Runtime} {Self} : MRet (M Self) :=
  fun A a st => (Ok a, st).

(** Sequencing: an exception ends the method, keeping the state reached. *)
#[global] Instance M_bind `{Runtime} {Self} : MBind (M Self) :=
  fun A B k m st =>
    match m st with
    | (Ok a, st') => k a st'
    | (Raise e, st') => (Raise e, st')
    end.

Definition lift `{Runtime} {Self A} (r : PyResult A) : M Self A :=
  fun st => (r, st).

Definition get `{Runtime} {Self} : M Self Self := fun st => (Ok (self st), st).

Definition modify `{Runtime} {Self} (f : Self -> Self) : M Self unit :=
  fun st => (Ok tt, mkState (f (self st)) (db st) (world st) (trace st)).

(** A library call: recorded, then answered by the runtime. *)
Definition call `{Runtime} {Self A} (ev : Event)
    (f : World -> PyResult A * World) : M Self A :=
  fun st =>
    let '(r, w) := f (world st) in
    (r, mkState (self st) (db st) w (trace st ++ [ev])).

(** [o.attr] where [o] may be [None]. *)
Definition attr_of {A} (o : option A) : PyResult A :=
  match o with
  | Some a => Ok a
  | None => Raise AttributeError
  end.

(** ** [Taxon]: resolving the external id *)

(** The f-string of [get_id_from_name]. *)
Definition esearch_url (name : str) : str :=
  lit "https://eutils.ncbi.nlm.nih.gov/entrez/eutils/esearch.fcgi?db=taxonomy&term="
  ++ name.

(** What [get_id_from_name] does with the parsed answer. Falling off the
    end of the function returns [None]. *)
Definition id_of_response `{Runtime} (root : Element) : PyResult (option Z) :=
  match attr_of (find (lit "Count") root) with
  | Raise e => Raise e
  | Ok count =>
      match int_of_str (el_text count) with
      | Raise e => Raise e
      | Ok n =>
          if 0 <? n then
            match attr_of (find (lit "IdList") root) with
            | Raise e => Raise e
            | Ok idlist =>
                match attr_of (find (lit "Id") idlist) with
                | Raise e => Raise e
                | Ok id =>
                    match int_of_str (el_text id) with
                    | Raise e => Raise e
                    | Ok i => Ok (Some i)
                    end
                end
            end
          else Ok None
      end
  end.

(** The static method [Taxon.get_id_from_name]. *)
Definition get_id_from_name `{Runtime} {Self} (name : str)
  : M Self (option Z) :=
  let url := esearch_url name in
  body ← call (RequestsGet url) (requests_get_content url);
  root ← lift (fromstring body);
  lift (id_of_response root).

Definition with_tax_id (t : Taxon) (i : option Z) : Taxon :=
  mkTaxon i (name t) (sup_taxon t) (rank t).

(** [Taxon.set_id_from_name] *)
Definition set_id_from_name `{Runtime} : M Taxon unit :=
  t ← get;
  n ← lift (clean_name t);
  i ← get_id_from_name n;
  modify (fun t => with_tax_id t i).

(** [super(Taxon, self).save(...)]: Django's own [Model.save] *)
Definition super_save `{Runtime} : M Taxon unit :=
  t ← get;
  call (DbSaveTaxon t) (django_save t).

(** [Taxon.save] *)
Definition save `{Runtime} : M Taxon unit :=
  t ← get;
  (if bool_decide (tax_id t = None) then set_id_from_name else mret tt);;
  super_save.

(** ** Querysets over [Prediction]

    The part of Django's lazy [QuerySet] that [SubmittedImage.specie]
    builds: a selection of rows, the grouping columns of [values], the
    aggregate of [annotate] and the ordering. Nothing is read before the
    queryset is evaluated. *)

Inductive Column : Type := ColPk | ColSpecie.

#[global] Instance Column_eq_dec : EqDecision Column.
Proof. solve_decision. Defined.

Record QuerySet : Type := mkQuerySet {
  qs_rows : list Prediction;        (* the rows selected, in table order *)
  qs_values : option (list Column); (* [.values(...)] *)
  qs_sum_confidence : bool;         (* [.annotate(tot_conf=Sum('confidence'))] *)
  qs_order_by : list Column         (* [.order_by(...)] *)
}.

(** One row of the result: the dict [{'specie': ..., 'tot_conf': ...}]. *)
Record SpecieConf : Type := mkSpecieConf {
  row_specie : Z;
  tot_conf : Decimal3
}.

(** Which Django runs the code. Up to 4.1 [first()] on an unordered
    queryset orders it by primary key; from 4.2 on it refuses to do so on a
    queryset that aggregates. *)
Inductive Django : Type := DjangoLegacy | Django42.

(** [image.prediction_set]: the reverse side of [Prediction.image]. *)
Definition prediction_set (d : Database) (image : SubmittedImage) : QuerySet :=
  mkQuerySet
    (filter (fun p => prediction_image p = image_pk image) (predictions d))
    None false [].

Definition values (cols : list Column) (q : QuerySet) : QuerySet :=
  mkQuerySet (qs_rows q) (Some cols) (qs_sum_confidence q) (qs_order_by q).

Definition annotate_sum_confidence (q : QuerySet) : QuerySet :=
  mkQuerySet (qs_rows q) (qs_values q) true (qs_order_by q).

Definition order_by (cols : list Column) (q : QuerySet) : QuerySet :=
  mkQuerySet (qs_rows q) (qs_values q) (qs_sum_confidence q) cols.

Definition column (c : Column) (p : Prediction) : Z :=
  match c with
  | ColPk => prediction_pk p
  | ColSpecie => prediction_specie p
  end.

(** The GROUP BY key: the columns of [values], and the ordering columns,
    which Django adds to the grouping. *)
Definition group_key (q : QuerySet) (p : Prediction) : list Z :=
  map (fun c => column c p) (default [] (qs_values q) ++ qs_order_by q).

(** A group under construction: its key, its first row, its sum. *)
Definition Group : Type := (list Z * (Prediction * Decimal3))%type.

(** Add one row to the groups, which stay in order of first appearance. *)
Fixpoint add_to_groups (k : list Z) (p : Prediction) (gs : list Group)
  : list Group :=
  match gs with
  | [] => [(k, (p, confidence p))]
  | (k', (p', s)) :: gs' =>
      if bool_decide (k' = k) then (k', (p', s + confidence p)) :: gs'
      else (k', (p', s)) :: add_to_groups k p gs'
  end.

Definition groups (q : QuerySet) : list Group :=
  fold_left (fun gs p => add_to_groups (group_key q p) p gs) (qs_rows q) [].

(** Lexicographic [<=] on ordering keys. *)
Fixpoint key_leb (a b : list Z) : bool :=
  match a, b with
  | [], _ => true
  | _ :: _, [] => false
  | x :: a', y :: b' => (x <? y) || ((x =? y) && key_leb a' b')
  end.

Definition order_key (q : QuerySet) (g : Group) : list Z :=
  map (fun c => column c (fst (snd g))) (qs_order_by q).

Fixpoint insert_group (q : QuerySet) (g : Group) (gs : list Group)
  : list Group :=
  match gs with
  | [] => [g]
  | g' :: gs' =>
      if key_leb (order_key q g) (order_key q g') then g :: g' :: gs'
      else g' :: insert_group q g gs'
  end.

(** ORDER BY, stable. With no ordering column the groups keep the order
    the database produced them in. *)
Definition sort_groups (q : QuerySet) (gs : list Group) : list Group :=
  match qs_order_by q with
  | [] => gs
  | _ :: _ => foldr (insert_group q) [] gs
  end.

(** Evaluating a [values('specie').annotate(tot_conf=Sum('confidence'))]
    queryset. *)
Definition evaluate_qs (q : QuerySet) : list SpecieConf :=
  map (fun g : Group => mkSpecieConf (prediction_specie (fst (snd g))) (snd (snd g)))
      (sort_groups q (groups q)).

(** [QuerySet.ordered]; [Prediction] declares no default ordering. *)
Definition ordered (q : QuerySet) : bool :=
  match qs_order_by q with [] => false | _ :: _ => true end.

(** Does the GROUP BY come from [values] + an aggregate without the
    primary key among its columns? *)
Definition aggregates_without_pk (q : QuerySet) : bool :=
  match qs_values q with
  | Some cols =>
      qs_sum_confidence q && negb (existsb (fun c => bool_decide (c = ColPk)) cols)
  | None => false
  end.

(** [QuerySet.first()]: the first row, or [None]. *)
Definition first (v : Django) (q : QuerySet) : PyResult (option SpecieConf) :=
  if ordered q then Ok (head (evaluate_qs q))
  else
    match v with
    | Django42 =>
        if aggregates_without_pk q then Raise TypeError
        else Ok (head (evaluate_qs (order_by [ColPk] q)))
    | DjangoLegacy => Ok (head (evaluate_qs (order_by [ColPk] q)))
    end.

(** The property [SubmittedImage.specie]. *)
Definition specie (v : Django) (d : Database) (self : SubmittedImage)
  : PyResult (option SpecieConf) :=
  first v (annotate_sum_confidence (values [ColSpecie] (prediction_set d self))).

(** Rows stored in strictly increasing order of primary key, as a table
    that only grows holds them. *)
Definition pk_ascending (ps : list Prediction) : Prop :=
  StronglySorted (fun a b => prediction_pk a < prediction_pk b) ps.

(** *** What the specification asks of the accessor *)

(** The summed confidence of species [s] over the predictions [ps]. *)
Definition summed_confidence (ps : list Prediction) (s : Z) : Decimal3 :=
  foldr Z.add 0 (map confidence (filter (fun p => prediction_specie p = s) ps)).

(** [s] is a species of maximal summed confidence among those predicted. *)
Definition has_max_summed_confidence (ps : list Prediction) (s : Z) : Prop :=
  (exists p, p ∈ ps /\ prediction_specie p = s) /\
  forall p, p ∈ ps ->
    summed_confidence ps (prediction_specie p) <= summed_confidence ps s.

(** ** Paths *)

(** [os.path.join(a, *p)] of [posixpath]: a component that starts with
    ['/'] discards everything before it. *)
Definition join2 (path b : str) : str :=
  if startswith (lit "/") b then b
  else if bool_decide (path = []) || endswith (lit "/") path then path ++ b
  else path ++ lit "/" ++ b.

Definition os_path_join (a : str) (p : list str) : str := fold_left join2 p a.

(** One component of a path: a name that is not empty, has no ['/'] in it
    and is neither ['.'] nor ['..']. *)
Definition is_component (s : str) : Prop :=
  s <> [] /\ Forall (fun c => c <> 47%N) s /\ s <> lit "." /\ s <> lit "..".

(** [p] names an entry of the directory [dir] itself: [dir], one ['/'] and
    one component. *)
Definition child_of (dir p : str) : Prop :=
  exists leaf, is_component leaf /\ p = dir ++ lit "/" ++ leaf.

(** ** [CNNArchitecture] and [CNN] *)

Record CNN `{Runtime} : Type := mkCNN {
  cnn_pk : option Z;
  date : option DateTime;       (* [auto_now_add]: [None] until first saved *)
  accuracy : option Score;
  cnn_name : str;
  architecture : CNNArchitecture;
  learning_data : option str;
  available : bool;
  nn_model : option Model;
  train_images : option (list GroundTruthImage);
  train_labels : option (list Z);
  test_images : option (list GroundTruthImage);
  test_labels : option (list Z)
}.
Arguments mkCNN {_} _ _ _ _ _ _ _ _ _ _ _ _.

Definition set_nn_model `{Runtime} (m : option Model) (c : CNN) : CNN :=
  mkCNN (cnn_pk c) (date c) (accuracy c) (cnn_name c) (architecture c)
        (learning_data c) (available c) m
        (train_images c) (train_labels c) (test_images c) (test_labels c).

Definition set_accuracy `{Runtime} (a : option Score) (c : CNN) : CNN :=
  mkCNN (cnn_pk c) (date c) a (cnn_name c) (architecture c)
        (learning_data c) (available c) (nn_model c)
        (train_images c) (train_labels c) (test_images c) (test_labels c).

Definition set_learning_data `{Runtime} (p : option str) (c : CNN) : CNN :=
  mkCNN (cnn_pk c) (date c) (accuracy c) (cnn_name c) (architecture c)
        p (available c) (nn_model c)
        (train_images c) (train_labels c) (test_images c) (test_labels c).

Definition set_available `{Runtime} (b : bool) (c : CNN) : CNN :=
  mkCNN (cnn_pk c) (date c) (accuracy c) (cnn_name c) (architecture c)
        (learning_data c) b (nn_model c)
        (train_images c) (train_labels c) (test_images c) (test_labels c).

(** [CNNArchitecture.compile]: [_create_model], then the model's own
    [compile] with the optimizer and loss names. *)
Definition architecture_compile `{Runtime} {Self} (a : CNNArchitecture)
  : M Self Model :=
  m ← call (CreateModel (model_code a)) (create_model (model_code a));
  let o := annotation_name (optimizer a) in
  let l := annotation_name (loss a) in
  call (ModelCompile o l) (model_compile m o l).

(** [CNN.split_images]. The queryset expression is built and dropped
    without being evaluated; everything after it is commented out. *)
Definition split_images `{Runtime}
    (images : option (list GroundTruthImage)) (test_fraction : Q)
  : M CNN unit :=
  s ← (fun st => (Ok st, st));
  let images :=
    match images with
    | None => ground_truth_images (db s)     (* [GroundTruthImage.objects.all()] *)
    | Some i => i
    end in
  mret tt.

(** The f-string of [save_model], for a date that is set. *)
Definition weights_dirname (architecture_name : str) (d : DateTime) : str :=
  architecture_name ++ lit "_" ++ of_int (year d) ++ lit "_"
  ++ of_int (month d) ++ lit "_" ++ of_int (day d) ++ lit "_"
  ++ of_int (hour d).

Definition weights_path (media_root architecture_name : str) (d : DateTime)
  : str :=
  os_path_join media_root
    [lit "training_datas"; weights_dirname architecture_name d].

(** [CNN.save_model] *)
Definition save_model `{Runtime} : M CNN unit :=
  c ← get;
  d ← lift (attr_of (date c));
  let p := weights_path MEDIA_ROOT (architecture_name (architecture c)) d in
  modify (set_learning_data (Some p));;
  call (OsMkdir p) (os_mkdir p);;
  c ← get;
  m ← lift (attr_of (nn_model c));
  call (ModelSave p) (model_save m p).

(** [CNN.train] *)
Definition train `{Runtime} (training_data : option (list GroundTruthImage))
  : M CNN unit :=
  c ← get;
  m ← architecture_compile (architecture c);
  modify (set_nn_model (Some m));;
  split_images None (2 # 10);;
  c ← get;
  m ← lift (attr_of (nn_model c));
  m' ← call (Fit 10) (fit m (train_images c) (train_labels c) 10);
  modify (set_nn_model (Some m'));;
  c ← get;
  m ← lift (attr_of (nn_model c));
  r ← call Evaluate (evaluate m (test_images c) (test_labels c));
  modify (set_accuracy (Some (snd r)));;
  save_model;;
  modify (set_available true).

(** ** Inference *)

(** Position of the first maximum of [xs] at or after [i], given the best
    value [best] seen so far at position [besti]. *)
Fixpoint argmax_from `{Runtime} (best : Score) (besti i : nat) (xs : list Score)
  : nat :=
  match xs with
  | [] => besti
  | x :: xs' =>
      if score_ltb best x then argmax_from x i (S i) xs'
      else argmax_from best besti (S i) xs'
  end.

(** [a.argmax()] on a flat array; numpy refuses an empty one. *)
Definition argmax `{Runtime} (xs : list Score) : PyResult Z :=
  match xs with
  | [] => Raise ValueError
  | x :: xs' => Ok (Z.of_nat (argmax_from x 0 1 xs'))
  end.

(** [predictions.argmax()] with no axis: over the flattened array. *)
Definition ndarray_argmax `{Runtime} (a : list (list Score)) : PyResult Z :=
  argmax (concat a).

(** [CNN.classify]. The function ends after [argmax()], whose value is
    dropped, so a call that does not raise returns [None]. *)
Definition classify `{Runtime} (images : list Image)
  : M CNN (option (list (option Z))) :=
  c ← get;
  (if negb (available c)
   then raise (Exception (lit "The CNN is not available yet"))
   else mret tt);;
  match nn_model c with
  | None =>
      m ← architecture_compile (architecture c);
      modify (set_nn_model (Some m));;
      c ← get;
      m ← lift (attr_of (nn_model c));
      m' ← call (LoadWeights (learning_data c)) (load_weights m (learning_data c));
      modify (set_nn_model (Some m'))
  | Some _ => mret tt
  end;;
  c ← get;
  m ← lift (attr_of (nn_model c));
  predictions ← call (Predict images) (predict m images);
  _ ← lift (ndarray_argmax predictions);
  mret None.

(** *** What the specification asks of [classify] *)

(** The species of the [Class] row of classifier [cnn] at position [i]. *)
Definition specie_at (d : Database) (cnn : Z) (i : Z) : option Z :=
  match List.find (fun k => bool_decide (class_cnn k = cnn /\ pos k = i))
                  (classes d) with
  | Some k => class_specie k
  | None => None
  end.

(** Per image: the index of the maximal score, mapped through the
    classifier's [Class] rows. *)
Definition species_of_predictions `{Runtime} (d : Database) (cnn : Z)
    (predictions : list (list Score)) : list (option Z) :=
  map (fun scores =>
         match argmax scores with
         | Ok i => specie_at d cnn i
         | Raise _ => None
         end) predictions.

(** ** The commented-out draft of [split_images]

    The loop that [split_images] carries in comments, as far as it creates
    [Class] rows: one row per species with more than 10 trustworthy images,
    positions counted from 1. [GroundTruthImage] has no [trustworthy] column;
    the test is taken as an argument. *)

Definition trustworthy_count (trustworthy : GroundTruthImage -> bool)
    (d : Database) (s : Specie) : Z :=
  Z.of_nat (length (filter (fun g => gt_specie g = Some (specie_pk s)
                                     /\ trustworthy g = true)
                           (ground_truth_images d))).

Fixpoint draft_class_rows (trustworthy : GroundTruthImage -> bool)
    (d : Database) (cnn : Z) (id_class : Z) (ss : list Specie) : list Class :=
  match ss with
  | [] => []
  | s :: ss' =>
      if 10 <? trustworthy_count trustworthy d s then
        mkClass id_class id_class cnn (Some (specie_pk s))  (* key: any *)
        :: draft_class_rows trustworthy d cnn (id_class + 1) ss'
      else draft_class_rows trustworthy d cnn id_class ss'
  end.

(** The species a classifier has a [Class] row for. *)
Definition admitted (d : Database) (cnn : Z) (s : Z) : Prop :=
  exists k, k ∈ classes d /\ class_cnn k = cnn /\ class_specie k = Some s.

(** The number of ground-truth images of a species. *)
Definition ground_truth_count (d : Database) (s : Z) : Z :=
  Z.of_nat (length (filter (fun g => gt_specie g = Some s)
                           (ground_truth_images d))).

(** ** Preprocessing *)

(** An array of shape (height, width, channels) is a list of rows of
    pixels; the channel count is read off the first pixel. *)
Definition channels {A} (img : list (list (list A))) : nat :=
  match img with
  | (px :: _) :: _ => length px
  | _ => 0%nat
  end.

(** [img[:, :, k] -= c]; numpy refuses a channel index out of range. *)
Definition sub_channel `{Runtime} (k : nat) (c : Q) (img : list (list (list f32)))
  : PyResult (list (list (list f32))) :=
  if (k <? channels img)%nat
  then Ok (map (map (alter (fun x => f32_sub x c) k)) img)
  else Raise IndexError.

(** [img[:, :, [0, 1, 2]] = img[:, :, [2, 1, 0]]]: the right-hand side is
    copied before the assignment. *)
Definition swap_pixel {A} (px : list A) : list A :=
  match px with
  | r :: g :: b :: rest => b :: g :: r :: rest
  | _ => px
  end.

Definition swap_channels {A} (img : list (list (list A)))
  : PyResult (list (list (list A))) :=
  if (2 <? channels img)%nat then Ok (map (map swap_pixel) img)
  else Raise IndexError.

(** Channel [c] of every pixel. *)
Definition plane {A} (c : nat) (img : list (list (list A))) : list (list A) :=
  map (fun row => flat_map (fun px => option_list (px !! c)) row) img.

(** [img.transpose((2, 0, 1))] *)
Definition transpose_201 {A} (img : list (list (list A)))
  : list (list (list A)) :=
  map (fun c => plane c img) (seq 0 (channels img)).

(** [np.expand_dims(img, axis=0)] *)
Definition expand_dims0 {A} (img : A) : list A := [img].

(** [Image.preprocess] *)
Definition preprocess `{Runtime} : M Image (list (list (list (list f32)))) :=
  i ← get;
  img ← call (Imread (image_path i)) (imread_rgb (image_path i));
  img ← lift (pil_resize img (224, 224));
  let img := map (map (map astype_float32)) img in
  img ← lift (sub_channel 0 (12368 # 100) img);
  img ← lift (sub_channel 1 (116779 # 1000) img);
  img ← lift (sub_channel 2 (103939 # 1000) img);
  img ← lift (swap_channels img);
  let img := transpose_201 img in
  mret (expand_dims0 img).

(** The shape of a 4-dimensional array whose rows all have the lengths
    given. *)
Definition has_shape4 {A} (n c h w : nat) (t : list (list (list (list A))))
  : Prop :=
  length t = n /\
  Forall (fun img => length img = c /\
    Forall (fun pl => length pl = h /\
      Forall (fun row => length row = w) pl) img) t.

Definition has_shape3 {A} (h w c : nat) (img : list (list (list A))) : Prop :=
  length img = h /\
  Forall (fun row => length row = w /\ Forall (fun px => length px = c) row) img.

(** [img[i][j][k]] and [t[i][j][k][l]] *)
Definition at3 {A} (img : list (list (list A))) (y x c : nat) : option A :=
  match img !! y with
  | Some row => match row !! x with Some px => px !! c | None => None end
  | None => None
  end.

Definition at4 {A} (t : list (list (list (list A)))) (i j k l : nat) : option A :=
  match t !! i with
  | Some img => at3 img j k l
  | None => None
  end.

(** The mean subtracted from channel [c] of an RGB pixel. *)
Definition channel_mean (c : nat) : Q :=
  match c with
  | 0%nat => 12368 # 100
  | 1%nat => 116779 # 1000
  | _ => 103939 # 1000
  end.

(** ** A scripted runtime, to run the methods on concrete inputs *)

Record Script : Type := mkScript {
  fails : nat -> option exn;              (* the n-th library call raises *)
  script_media_root : str;
  script_page : Element;                  (* what the taxonomy service answers *)
  script_scores : list (list Z);          (* what [predict] answers *)
  script_picture : list (list (list Z))   (* what [imread] decodes *)
}.

(** The world counts the library calls made so far. *)
Definition tick {A} (s : Script) (a : A) (w : nat) : PyResult A * nat :=
  (match fails s w with Some e => Raise e | None => Ok a end, S w).

(** Plain decimal text, as [int] reads it; other text is a [ValueError],
    [None] a [TypeError]. *)
Fixpoint decimal_digits (acc : Z) (s : str) : PyResult Z :=
  match s with
  | [] => Ok acc
  | c :: s' =>
      if ((48 <=? c) && (c <=? 57))%N
      then decimal_digits (10 * acc + Z.of_N (c - 48)) s'
      else Raise ValueError
  end.

Definition decimal_int (t : option str) : PyResult Z :=
  match t with
  | None => Raise TypeError
  | Some [] => Raise ValueError
  | Some (c :: s) => decimal_digits 0 (c :: s)
  end.

(** Resizing a picture to its top-left pixel repeated: exact on a picture of
    one colour. *)
Definition resize_solid (img : list (list (list Z))) (size : Z * Z)
  : PyResult (list (list (list Z))) :=
  match img with
  | (px :: _) :: _ =>
      Ok (replicate (Z.to_nat (snd size)) (replicate (Z.to_nat (fst size)) px))
  | _ => Raise ValueError
  end.

Definition scripted (s : Script) : Runtime := {|
  World := nat;
  Model := nat;
  Score := Z;
  score_ltb := Z.ltb;
  MEDIA_ROOT := script_media_root s;
  int_of_str := decimal_int;
  requests_get_content := fun _ => tick s [];
  fromstring := fun _ => Ok (script_page s);
  django_save := fun _ => tick s tt;
  create_model := fun _ => tick s 0%nat;
  model_compile := fun m _ _ => tick s m;
  load_weights := fun m _ => tick s m;
  fit := fun m _ _ _ => tick s (S m);
  evaluate := fun _ _ _ => tick s (0, 875);
  predict := fun _ _ => tick s (script_scores s);
  os_mkdir := fun _ => tick s tt;
  model_save := fun _ _ => tick s tt;
  f32 := Q;
  astype_float32 := inject_Z;
  f32_sub := Qminus;
  imread_rgb := fun _ => tick s (script_picture s);
  pil_resize := resize_solid
|}.

(** A run in which no library call fails. *)
Definition calm : Script :=
  mkScript (fun _ => None) (lit "/srv/media") (El (lit "eSearchResult") None [])
           [] [].

Definition failing_at (n : nat) (e : exn) (s : Script) : Script :=
  mkScript (fun k => if (k =? n)%nat then Some e else fails s k)
           (script_media_root s) (script_page s) (script_scores s)
           (script_picture s).

Definition with_page (page : Element) (s : Script) : Script :=
  mkScript (fails s) (script_media_root s) page (script_scores s)
           (script_picture s).

Definition with_scores (scores : list (list Z)) (s : Script) : Script :=
  mkScript (fails s) (script_media_root s) (script_page s) scores
           (script_picture s).

Definition with_picture (picture : list (list (list Z))) (s : Script) : Script :=
  mkScript (fails s) (script_media_root s) (script_page s) (script_scores s)
           picture.

Definition empty_db : Database := mkDatabase [] [] [] [].

(** The state a method starts in under a script. *)
Definition start (s : Script) {Self} (obj : Self) (d : Database)
  : @State (scripted s) Self :=
  @mkState (scripted s) Self obj d 0%nat [].

(** ** Reasoning about methods

    [triple P m Q E]: started in a state satisfying [P], the method [m]
    either returns [a] in a state satisfying [Q a], or raises [e] in a state
    satisfying [E e]. Methods are total, so one of the two happens. *)
Definition triple `{Runtime} {Self A} (P : State Self -> Prop) (m : M Self A)
    (Q : A -> State Self -> Prop) (E : exn -> State Self -> Prop) : Prop :=
  forall st, P st ->
    match m st with
    | (Ok a, st') => Q a st'
    | (Raise e, st') => E e st'
    end.

(** The state after a library call answered with world [w]. *)
Definition after_call `{Runtime} {Self} (ev : Event) (w : World)
    (st : State Self) : State Self :=
  mkState (self st) (db st) w (trace st ++ [ev]).


(** ** [Taxon.__str__]

    [taxa] is the taxon table by primary key, through which
    [self.sup_taxon] is fetched. The method calls itself on the parent;
    [depth] bounds the nesting as the interpreter's recursion limit does.
    Reaching the bound is [RecursionError] (here [LibraryError 0]); a parent
    key with no row is [Taxon.DoesNotExist] (here [LibraryError 1]). *)
Fixpoint taxon_str (taxa : gmap Z Taxon) (depth : nat) (self : Taxon)
  : PyResult str :=
  match depth with
  | O => Raise (LibraryError 0)
  | S depth' =>
      match sup_taxon self with
      | None => clean_name self
      | Some k =>
          match taxa !! k with
          | None => Raise (LibraryError 1)
          | Some parent =>
              match taxon_str taxa depth' parent with
              | Raise e => Raise e
              | Ok s =>
                  match clean_name self with
                  | Raise e => Raise e
                  | Ok c => Ok (s ++ lit " > " ++ c)
                  end
              end
          end
      end
  end.

(** The taxa from the root of the hierarchy down to [t], following
    [sup_taxon] through the table. *)
Inductive Lineage (taxa : gmap Z Taxon) : Taxon -> list Taxon -> Prop :=
| Lineage_root t :
    sup_taxon t = None -> Lineage taxa t [t]
| Lineage_child t k p l :
    sup_taxon t = Some k -> taxa !! k = Some p -> Lineage taxa p l ->
    Lineage taxa t (l ++ [t]).

(** ** Sample objects *)

Definition species_rank : RankTaxon := mkRankTaxon 8 (lit "species").
Definition family_rank : RankTaxon := mkRankTaxon 5 (lit "family").

Definition homo_sapiens : Taxon :=
  mkTaxon None (lit " Homo  sapiens L.") None species_rank.

Definition hominidae : Taxon :=
  mkTaxon (Some 9604) (lit "Hominidae Gray, 1825") None family_rank.

Definition blank_species : Taxon := mkTaxon None (lit "  ") None species_rank.
Definition blank_genus : Taxon := mkTaxon None (lit "  ") None family_rank.

(** The answer of the taxonomy service to a name it does not know. *)
Definition no_match_page : Element :=
  El (lit "eSearchResult") None
     [El (lit "Count") (Some (lit "0")) [];
      El (lit "RetMax") (Some (lit "0")) [];
      El (lit "IdList") None []].

(** Its answer to a name it knows. *)
Definition one_match_page : Element :=
  El (lit "eSearchResult") None
     [El (lit "Count") (Some (lit "1")) [];
      El (lit "RetMax") (Some (lit "1")) [];
      El (lit "IdList") None [El (lit "Id") (Some (lit "9606")) []]].

Definition googlenet : CNNArchitecture :=
  mkCNNArchitecture (lit "GoogLeNet") (mkAnnotation (lit "adam"))
    (mkAnnotation (lit "categorical_crossentropy"))
    (lit "models_scripts/googlenet.py").


(** An architecture whose name climbs out of the directory it is joined
    to. *)
Definition climbing_net : CNNArchitecture :=
  mkCNNArchitecture (lit "../escape") (mkAnnotation (lit "adam"))
    (mkAnnotation (lit "categorical_crossentropy"))
    (lit "models_scripts/net.py").

Definition pi_day : DateTime := mkDateTime 2020 3 14 15.

(** A saved classifier (key 1), under a script. *)
Definition sample_cnn (s : Script) (a : CNNArchitecture) (avail : bool)
    (m : option nat) : @CNN (scripted s) :=
  @mkCNN (scripted s) (Some 1) (Some pi_day) None (lit "first") a None avail m
         None None None None.

Definition image_a : Image := mkImage 1 (lit "/srv/media/images/a.jpg") 1 1.
Definition image_b : Image := mkImage 2 (lit "/srv/media/images/b.jpg") 1 1.

(** Classifier 1 knows three species, at positions 0, 1 and 2. *)
Definition classes_db : Database :=
  mkDatabase [] [] []
    [mkClass 1 0 1 (Some 10); mkClass 2 1 1 (Some 11); mkClass 3 2 1 (Some 12)].

Definition specie_row (pk : Z) (n : str) : Specie :=
  mkSpecie pk (mkTaxon None n None species_rank) n n.

Definition ground_truth (pk : Z) (s : Z) : GroundTruthImage :=
  mkGroundTruthImage (mkImage pk (lit "/srv/media/images/g.jpg") 1 1) (Some s).

(** Species 7 with eleven ground-truth images, species 8 with ten; no
    [Class] row yet. *)
Definition eleven_images_db : Database :=
  mkDatabase
    [specie_row 7 (lit "Parus major"); specie_row 8 (lit "Pica pica")]
    (map (fun k => ground_truth k 7) (map Z.of_nat (seq 1 11))
     ++ map (fun k => ground_truth k 8) (map Z.of_nat (seq 12 10)))
    [] [].

(** Three predictions for image 1: species 2 with 0.5, then species 1 with
    0.6 and 0.3. *)
Definition three_predictions : list Prediction :=
  [mkPrediction 1 1 1 2 500; mkPrediction 2 1 1 1 600; mkPrediction 3 1 1 1 300].

Definition three_predictions_db : Database :=
  mkDatabase [] [] three_predictions [].

(** The same with the rows of species 1 stored first. *)
Definition three_predictions_db' : Database :=
  mkDatabase [] []
    [mkPrediction 1 1 1 1 600; mkPrediction 2 1 1 1 300; mkPrediction 3 1 1 2 500]
    [].

(** An answer that announces a match and lists none. *)
Definition count_only_page : Element :=
  El (lit "eSearchResult") None [El (lit "Count") (Some (lit "2")) []].

Definition genus_rank : RankTaxon := mkRankTaxon 7 (lit "genus").

Definition homo : Taxon :=
  mkTaxon (Some 9605) (lit "Homo Linnaeus, 1758") (Some 2) genus_rank.

Definition sapiens : Taxon :=
  mkTaxon (Some 9606) (lit "Homo sapiens L.") (Some 3) species_rank.

(** Taxon 2 is the family, 3 the genus under it, 4 the species under the
    genus. *)
Definition hominid_table : gmap Z Taxon :=
  <[2 := hominidae]> (<[3 := homo]> (<[4 := sapiens]> ∅)).

(** A taxon recorded as its own parent. *)
Definition ouroboros : Taxon :=
  mkTaxon None (lit "Ouroboros") (Some 9) genus_rank.

(** * Properties *)

(** ** [str.split] *)

Section Split.

Local Abbreviation nonblank := (Forall (fun c => isspace c = false)).

Lemma flush_app cur toks : flush cur toks = flush cur [] ++ toks.
Proof. destruct cur; reflexivity. Qed.

(** Reading a run of non-blank characters only grows the current token. *)
Lemma split_from_run t cur s :
  nonblank t -> split_from cur (t ++ s) = split_from (rev t ++ cur) s.
Proof.
  intros Ht. revert cur. induction Ht as [|c t Hc _ IH]; intros cur; simpl.
  - reflexivity.
  - rewrite Hc, IH, <- app_assoc. reflexivity.
Qed.

Lemma split_blank_cons c s : isspace c = true -> split (c :: s) = split s.
Proof. intros Hc. unfold split. simpl. rewrite Hc. reflexivity. Qed.

Lemma split_blank_app b s : is_blank b -> split (b ++ s) = split s.
Proof.
  induction 1 as [|c b Hc _ IH]; simpl; [reflexivity|].
  rewrite split_blank_cons; assumption.
Qed.

Lemma split_blank s : is_blank s -> split s = [].
Proof.
  intros Hb. rewrite <- (app_nil_r s), split_blank_app by assumption.
  reflexivity.
Qed.

Lemma rev_token_flush t toks : t <> [] -> flush (rev t) toks = t :: toks.
Proof.
  intros Ht. destruct (rev t) as [|c r] eqn:E.
  - apply (f_equal (@rev N)) in E. rewrite rev_involutive in E. contradiction.
  - cbn [flush]. rewrite <- E, rev_involutive. reflexivity.
Qed.

Lemma split_token_end t : is_token t -> split t = [t].
Proof.
  intros [Hne Ht]. unfold split.
  rewrite <- (app_nil_r t) at 1. rewrite split_from_run by assumption.
  rewrite app_nil_r. simpl. apply rev_token_flush. assumption.
Qed.

Lemma split_token_blank t w s :
  is_token t -> isspace w = true -> split (t ++ w :: s) = t :: split s.
Proof.
  intros [Hne Ht] Hw. unfold split.
  rewrite split_from_run by assumption. rewrite app_nil_r. simpl.
  rewrite Hw. apply rev_token_flush. assumption.
Qed.

(** The scanning loop computes the tokens. *)
Lemma Tokens_split_eq s toks : Tokens s toks -> split s = toks.
Proof.
  induction 1 as [s Hs|b t Hb Ht|b t w s ts Hb Ht Hw _ IH].
  - apply split_blank. assumption.
  - rewrite split_blank_app by assumption. apply split_token_end. assumption.
  - rewrite split_blank_app by assumption.
    rewrite split_token_blank by assumption. rewrite IH. reflexivity.
Qed.

Lemma Tokens_blank_cons c s toks :
  isspace c = true -> Tokens s toks -> Tokens (c :: s) toks.
Proof.
  intros Hc Ht. destruct Ht as [s Hs|b t Hb Ht|b t w s ts Hb Ht Hw Hs].
  - apply Tokens_blank. constructor; assumption.
  - apply (Tokens_last (c :: b)); [constructor|]; assumption.
  - apply (Tokens_more (c :: b)); [constructor| | |]; assumption.
Qed.

Lemma Tokens_split_from cur s :
  nonblank cur -> Tokens (rev cur ++ s) (split_from cur s).
Proof.
  revert cur. induction s as [|c s IH]; intros cur Hcur; simpl.
  - rewrite app_nil_r. destruct cur as [|a cur]; simpl.
    + apply Tokens_blank. constructor.
    + apply (Tokens_last [] (rev cur ++ [a])); [constructor|].
      split; [destruct (rev cur); discriminate|].
      apply Forall_rev in Hcur. exact Hcur.
  - destruct (isspace c) eqn:Hc.
    + destruct cur as [|a cur]; simpl.
      * apply Tokens_blank_cons; [assumption|]. apply (IH []). constructor.
      * apply (Tokens_more [] (rev cur ++ [a]) c s); try assumption.
        -- constructor.
        -- split; [destruct (rev cur); discriminate|].
           apply Forall_rev in Hcur. exact Hcur.
        -- apply (IH []). constructor.
    + specialize (IH (c :: cur)). simpl in IH. rewrite <- app_assoc in IH.
      apply IH. constructor; assumption.
Qed.

(** Every string has tokens, and [split] returns them. *)
Lemma Tokens_split s : Tokens s (split s).
Proof. apply (Tokens_split_from [] s). constructor. Qed.

Lemma Tokens_iff s toks : Tokens s toks <-> split s = toks.
Proof.
  split; [apply Tokens_split_eq|]. intros <-. apply Tokens_split.
Qed.

Lemma Tokens_are_tokens s toks : Tokens s toks -> Forall is_token toks.
Proof.
  induction 1 as [s Hs|b t Hb Ht|b t w s ts Hb Ht Hw _ IH].
  - apply Forall_nil_2.
  - apply Forall_cons_2; [assumption|apply Forall_nil_2].
  - apply Forall_cons_2; assumption.
Qed.

Lemma split_nil_blank s : split s = [] <-> is_blank s.
Proof.
  split; [|apply split_blank].
  intros E. pose proof (Tokens_split s) as T. rewrite E in T.
  inversion T. assumption.
Qed.

End Split.

(** ** [Taxon.clean_name] *)

(** C5. For a taxon of rank 8 (species) [clean_name] is the first two
    whitespace-separated tokens of [name] joined by one space (all of them
    when there are fewer than two); for a taxon of any other rank it is the
    first token. *)
Theorem clean_name_tokens (t : Taxon) (toks : list str) :
  Tokens (name t) toks ->
  (rank_id (rank t) = 8 ->
   clean_name t = Ok (join (lit " ") (take 2 toks))) /\
  (rank_id (rank t) <> 8 ->
   forall tok rest, toks = tok :: rest -> clean_name t = Ok tok).
Proof.
  intros HT. apply Tokens_split_eq in HT. unfold clean_name. rewrite HT.
  split.
  - intros ->. reflexivity.
  - intros Hne tok rest ->.
    destruct (Z.eqb_spec (rank_id (rank t)) 8) as [E|_]; [contradiction|].
    reflexivity.
Qed.

Lemma clean_name_tokens_witness :
  Tokens (name homo_sapiens) [lit "Homo"; lit "sapiens"; lit "L."] /\
  clean_name homo_sapiens = Ok (lit "Homo sapiens") /\
  Tokens (name hominidae) [lit "Hominidae"; lit "Gray,"; lit "1825"] /\
  clean_name hominidae = Ok (lit "Hominidae").
Proof.
  assert (T1 : Tokens (name homo_sapiens) [lit "Homo"; lit "sapiens"; lit "L."])
    by (apply Tokens_iff; reflexivity).
  assert (T2 : Tokens (name hominidae) [lit "Hominidae"; lit "Gray,"; lit "1825"])
    by (apply Tokens_iff; reflexivity).
  split; [exact T1|]. split.
  - exact (proj1 (clean_name_tokens homo_sapiens _ T1) eq_refl).
  - split; [exact T2|].
    refine (proj2 (clean_name_tokens hominidae _ T2) _ _ _ eq_refl).
    simpl. lia.
Defined.

(** With two tokens or more, a species name is the first two with a single
    space between them. *)
Lemma clean_name_species_two (t : Taxon) (a b : str) (rest : list str) :
  rank_id (rank t) = 8 -> Tokens (name t) (a :: b :: rest) ->
  clean_name t = Ok (a ++ lit " " ++ b).
Proof.
  intros H8 HT. apply Tokens_split_eq in HT.
  unfold clean_name. rewrite HT, H8. reflexivity.
Qed.

(** [clean_name] returns exactly when the rank is 8 or the name has a
    token. *)
Lemma clean_name_defined_iff (t : Taxon) :
  returns (clean_name t) <-> rank_id (rank t) = 8 \/ ~ is_blank (name t).
Proof.
  unfold clean_name, returns.
  destruct (Z.eqb_spec (rank_id (rank t)) 8) as [E|E]; simpl.
  - split; [auto|]. intros _. eexists. reflexivity.
  - rewrite <- split_nil_blank. destruct (split (name t)) as [|tok rest]; simpl.
    + split; [intros [a Ha]; discriminate|]. intros [?|Hn]; contradiction.
    + split; [intros _; right; discriminate|]. intros _. eexists. reflexivity.
Qed.

(** The claim C10 fails for a species: a blank name gives the empty clean
    name, not an error. *)
Lemma clean_name_blank_species_returns :
  is_blank (name blank_species) /\
  clean_name blank_species = Ok [] /\
  ~ raises (clean_name blank_species).
Proof.
  split; [repeat constructor|]. split; [reflexivity|].
  intros [e He]. discriminate He.
Qed.

(** C10, as amended. On a blank name (empty, or whitespace only)
    [clean_name] raises [IndexError] for every rank other than 8, and
    returns the empty string for rank 8. *)
Theorem clean_name_blank (t : Taxon) :
  is_blank (name t) ->
  clean_name t = if rank_id (rank t) =? 8 then Ok [] else Raise IndexError.
Proof.
  intros Hb. apply split_blank in Hb. unfold clean_name. rewrite Hb.
  destruct (rank_id (rank t) =? 8); reflexivity.
Qed.

Lemma clean_name_blank_witness :
  is_blank (name blank_genus) /\ clean_name blank_genus = Raise IndexError.
Proof.
  assert (Hb : is_blank (name blank_genus)) by (repeat constructor).
  split; [exact Hb|]. exact (clean_name_blank blank_genus Hb).
Defined.

(** ** Running methods *)

Ltac run :=
  unfold mbind, M_bind, mret, M_ret, call, lift, get, modify, raise; simpl.

(** ** Rules for [triple] *)

Section Triples.

Context `{R : Runtime} {Self : Type}.

Implicit Types (P : State Self -> Prop) (E : exn -> State Self -> Prop).








Lemma triple_weaken {A} P P' (m : M Self A)
    (Q Q' : A -> State Self -> Prop) E E' :
  triple P' m Q' E' ->
  (forall st, P st -> P' st) ->
  (forall a st, Q' a st -> Q a st) ->
  (forall e st, E' e st -> E e st) ->
  triple P m Q E.
Proof.
  intros Hm HP HQ HE st Hst. specialize (Hm st (HP st Hst)).
  destruct (m st) as [[a|e] st']; auto.
Qed.

End Triples.

(** ** [Taxon]: the external id *)

Section Taxonomy.

Context `{R : Runtime}.

Lemma id_of_response_zero (root count : Element) :
  find (lit "Count") root = Some count ->
  int_of_str (el_text count) = Ok 0 ->
  id_of_response root = Ok None.
Proof.
  intros Hc H0. unfold id_of_response. rewrite Hc. simpl. rewrite H0.
  reflexivity.
Qed.

(** C8. A response whose [Count] reads as zero makes [get_id_from_name]
    return [None] without raising; [save] goes through [set_id_from_name]
    when [tax_id] is [None] and is the plain model save otherwise. *)
Theorem lookup_zero_and_save_guard :
  (forall (Self : Type) (st : State Self) (name body : str) (w : World)
          (root count : Element),
     requests_get_content (esearch_url name) (world st) = (Ok body, w) ->
     fromstring body = Ok root ->
     find (lit "Count") root = Some count ->
     int_of_str (el_text count) = Ok 0 ->
     fst (get_id_from_name name st) = Ok None) /\
  (forall st : State Taxon,
     tax_id (self st) <> None -> save st = super_save st) /\
  (forall st : State Taxon,
     tax_id (self st) = None -> save st = (set_id_from_name;; super_save) st).
Proof.
  split; [|split].
  - intros Self st name body w root count Hget Hparse Hc H0.
    unfold get_id_from_name. run. rewrite Hget, Hparse.
    rewrite (id_of_response_zero root count Hc H0). reflexivity.
  - intros st Hid. unfold save. run.
    rewrite bool_decide_eq_false_2 by assumption. destruct st; reflexivity.
  - intros st Hid. unfold save. run.
    rewrite bool_decide_eq_true_2 by assumption. reflexivity.
Qed.

End Taxonomy.

Lemma lookup_zero_and_save_guard_witness :
  fst (get_id_from_name (H := scripted (with_page no_match_page calm))
         (lit "Homo sapiens") (start _ homo_sapiens empty_db)) = Ok None /\
  save (H := scripted calm) (start calm hominidae empty_db)
  = super_save (start calm hominidae empty_db).
Proof.
  pose proof (lookup_zero_and_save_guard
                (R := scripted (with_page no_match_page calm))) as [H1 _].
  pose proof (lookup_zero_and_save_guard (R := scripted calm)) as [_ [H2 _]].
  split.
  - apply (H1 Taxon _ _ [] 1%nat no_match_page
              (El (lit "Count") (Some (lit "0")) [])); reflexivity.
  - apply H2. simpl. discriminate.
Defined.

(** A save of a taxon that has its id makes no request; a save of one
    that lacks it asks the service first. *)
Example save_with_id_trace :
  trace (snd (save (H := scripted calm) (start calm hominidae empty_db)))
  = [DbSaveTaxon hominidae].
Proof. reflexivity. Qed.

Example save_without_id_trace :
  let s := with_page one_match_page calm in
  let st := snd (save (H := scripted s) (start s homo_sapiens empty_db)) in
  trace st = [RequestsGet (esearch_url (lit "Homo sapiens"));
              DbSaveTaxon (with_tax_id homo_sapiens (Some 9606))]
  /\ tax_id (self st) = Some 9606.
Proof. split; reflexivity. Qed.

Example save_no_match :
  let s := with_page no_match_page calm in
  let '(r, st) := save (H := scripted s) (start s homo_sapiens empty_db) in
  r = Ok tt /\ tax_id (self st) = None.
Proof. split; reflexivity. Qed.

(** ** The life cycle of a [CNN] *)

Section Lifecycle.

Context `{R : Runtime}.

(** C4. On a classifier whose [available] is false, [classify] raises, for
    every collection of images, and changes nothing. *)
Theorem classify_unavailable (images : list Image) (st : State CNN) :
  available (self st) = false ->
  classify images st
  = (Raise (Exception (lit "The CNN is not available yet")), st).
Proof.
  intros Ha. unfold classify. run. rewrite Ha. reflexivity.
Qed.

(** *** [available] during training *)

(** The states in which [available] has the value [b]. *)
Local Abbreviation avail b := (fun st : State CNN => available (self st) = b).










(** *** Where [save_model] writes *)

Lemma startswith_slash_dirname (n : str) (d : DateTime) :
  startswith (lit "/") n = false ->
  startswith (lit "/") (weights_dirname n d) = false.
Proof. destruct n as [|c n]; [reflexivity|]. intros H. exact H. Qed.

Lemma endswith_slash_training_datas (path : str) :
  endswith (lit "/") (path ++ lit "training_datas") = false.
Proof. unfold endswith. rewrite rev_app_distr. reflexivity. Qed.

Lemma join2_training_datas (root : str) :
  exists pre, join2 root (lit "training_datas") = pre ++ lit "training_datas".
Proof.
  unfold join2. change (startswith (lit "/") (lit "training_datas")) with false.
  cbv iota. destruct (bool_decide (root = []) || endswith (lit "/") root).
  - exists root. reflexivity.
  - exists (root ++ lit "/"). rewrite <- app_assoc. reflexivity.
Qed.

(** The training-artifacts root is not empty and does not end in ['/']. *)
Lemma training_root_shape (root : str) :
  let r := os_path_join root [lit "training_datas"] in
  r <> [] /\ endswith (lit "/") r = false.
Proof.
  cbn [os_path_join fold_left].
  destruct (join2_training_datas root) as [pre ->]. split.
  - destruct pre; discriminate.
  - apply endswith_slash_training_datas.
Qed.

(** For a name that does not start with ['/'] the path lies directly under
    the root. *)
Lemma weights_path_under_root (root n : str) (d : DateTime) :
  startswith (lit "/") n = false ->
  weights_path root n d
  = os_path_join root [lit "training_datas"] ++ lit "/" ++ weights_dirname n d.
Proof.
  intros Hn. pose proof (training_root_shape root) as [Hne Hend].
  unfold weights_path. cbn [os_path_join fold_left] in *.
  set (r := join2 root (lit "training_datas")) in *.
  unfold join2 at 1. rewrite (startswith_slash_dirname n d Hn), Hend.
  rewrite bool_decide_eq_false_2 by assumption. reflexivity.
Qed.







(** *** [classify] and [split_images] *)

(** A call of [classify] that returns, returns [None]. *)
Lemma classify_returns_none (images : list Image) (st : State CNN) :
  match classify images st with
  | (Ok v, _) => v = None
  | (Raise _, _) => True
  end.
Proof.
  unfold classify, architecture_compile. run.
  destruct (available (self st)); simpl; [|trivial].
  destruct (nn_model (self st)) as [m|] eqn:Em; simpl; rewrite ?Em; simpl.
  - destruct (predict _ _ _) as [[p|e] w]; simpl; [|trivial].
    destruct (ndarray_argmax p); simpl; trivial.
  - destruct (create_model _ _) as [[m|e] w]; simpl; [|trivial].
    destruct (model_compile _ _ _ _) as [[m'|e] w']; simpl; [|trivial].
    destruct (load_weights _ _ _) as [[m''|e] w'']; simpl; [|trivial].
    destruct (predict _ _ _) as [[p|e] w3]; simpl; [|trivial].
    destruct (ndarray_argmax p); simpl; trivial.
Qed.

End Lifecycle.

Lemma classify_unavailable_witness :
  classify (H := scripted calm) [image_a; image_b]
    (start calm (sample_cnn calm googlenet false (Some 0%nat)) classes_db)
  = (Raise (Exception (lit "The CNN is not available yet")),
     start calm (sample_cnn calm googlenet false (Some 0%nat)) classes_db).
Proof.
  apply (classify_unavailable (R := scripted calm)). reflexivity.
Defined.

(** [train] under a script whose [n]-th library call fails, for each of the
    six calls it makes: the classifier stays unavailable. *)
Example train_failure_keeps_unavailable (n : nat) :
  (n < 6)%nat ->
  let s := failing_at n (LibraryError n) calm in
  let '(r, st) := train (H := scripted s) None
                    (start s (sample_cnn s googlenet false None) empty_db) in
  r = Raise (LibraryError n) /\ available (self st) = false.
Proof.
  intros Hn. do 6 (destruct n as [|n]; [vm_compute; split; reflexivity|]). lia.
Qed.

Example train_success_available :
  let '(r, st) := train (H := scripted calm) None
                    (start calm (sample_cnn calm googlenet false None) empty_db) in
  r = Ok tt /\ available (self st) = true /\
  trace st = [CreateModel (lit "models_scripts/googlenet.py");
              ModelCompile (lit "adam") (lit "categorical_crossentropy");
              Fit 10; Evaluate;
              OsMkdir (lit "/srv/media/training_datas/GoogLeNet_2020_3_14_15");
              ModelSave (lit "/srv/media/training_datas/GoogLeNet_2020_3_14_15")].
Proof. vm_compute. repeat split; reflexivity. Qed.

(** A classifier never saved has no [date]: [save_model] raises before it
    touches anything, and [train] leaves [available] as it was. *)
Example train_without_date :
  let c := @mkCNN (scripted calm) None None None (lit "new") googlenet None
                  false None None None None None in
  let '(r, st) := train (H := scripted calm) None (start calm c empty_db) in
  r = Raise AttributeError /\ available (self st) = false /\
  learning_data (self st) = None.
Proof. vm_compute. repeat split; reflexivity. Qed.



(** A name that starts with ['..'] does not start with ['/'], and leaves
    the root all the same: the path made is
    [MEDIA_ROOT/training_datas/../escape_2020_3_14_15], which is no entry of
    the root; the file system resolves it to [MEDIA_ROOT/escape_2020_3_14_15]. *)
Example save_model_climbing_name_leaves_root :
  let st := start calm (sample_cnn calm climbing_net false (Some 0%nat)) empty_db in
  let root := lit "/srv/media/training_datas" in
  fst (save_model (H := scripted calm) st) = Ok tt /\
  startswith (lit "/") (architecture_name climbing_net) = false /\
  learning_data (self (snd (save_model (H := scripted calm) st)))
  = Some (root ++ lit "/" ++ lit "../escape_2020_3_14_15") /\
  ~ child_of root (root ++ lit "/" ++ lit "../escape_2020_3_14_15").
Proof.
  repeat split; try (vm_compute; reflexivity).
  intros [leaf [[_ [Hns _]] E]].
  apply app_inv_head in E. apply app_inv_head in E. subst leaf.
  rewrite Forall_forall in Hns. apply (Hns 47%N); [|reflexivity].
  do 2 right. left.
Qed.


(** ** [classify] returns no species *)

(** C3. On an available classifier with a loaded model, two images and
    scores whose maxima sit at positions 1 and 0, [classify] returns [None];
    the [Class] rows would give species 11 and 10. *)
Theorem classify_returns_no_species :
  let s := with_scores [[100; 900; 0]; [800; 150; 50]] calm in
  let st := start s (sample_cnn s googlenet true (Some 0%nat)) classes_db in
  classify (H := scripted s) [image_a; image_b] st
  = (Ok None,
     @mkState (scripted s) CNN (self st) (db st) 1%nat
       [Predict [image_a; image_b]]) /\
  species_of_predictions (H := scripted s) classes_db 1 (script_scores s)
  = [Some 11; Some 10].
Proof. vm_compute. split; reflexivity. Qed.

(** Without an axis, [argmax] of no scores at all is an error: classifying
    an empty batch raises. *)
Example classify_empty_batch :
  let s := calm in
  fst (classify (H := scripted s) []
         (start s (sample_cnn s googlenet true (Some 0%nat)) classes_db))
  = Raise ValueError.
Proof. vm_compute. reflexivity. Qed.

(** ** [split_images] admits no species *)

(** C2. With eleven ground-truth images of species 7, [split_images]
    returns without having created any [Class] row, and so does the whole of
    [train]: species 7 is not admitted although its count exceeds 10. *)
Theorem split_images_creates_no_class :
  let c := sample_cnn calm googlenet false None in
  let st := start calm c eleven_images_db in
  ground_truth_count eleven_images_db 7 = 11 /\
  split_images (H := scripted calm) None (2 # 10) st = (Ok tt, st) /\
  ~ admitted (db (snd (split_images (H := scripted calm) None (2 # 10) st))) 1 7 /\
  fst (train (H := scripted calm) None st) = Ok tt /\
  classes (db (snd (train (H := scripted calm) None st))) = [] /\
  train_images (self (snd (train (H := scripted calm) None st))) = None.
Proof.
  repeat split; try (vm_compute; reflexivity).
  intros [k [Hk _]]. vm_compute in Hk. inversion Hk.
Qed.

(** The loop kept in comments would admit exactly the species with more
    than 10 trustworthy images. *)
Lemma draft_class_rows_admit (trustworthy : GroundTruthImage -> bool)
    (d : Database) (cnn : Z) (ss : list Specie) (i : Z) (s : Z) :
  (exists k, k ∈ draft_class_rows trustworthy d cnn i ss /\
             class_cnn k = cnn /\ class_specie k = Some s)
  <-> (exists sp, sp ∈ ss /\ specie_pk sp = s /\
                  10 < trustworthy_count trustworthy d sp).
Proof.
  revert i. induction ss as [|sp ss IH]; intros i; simpl.
  - split; intros [x [Hx _]]; inversion Hx.
  - destruct (Z.ltb_spec 10 (trustworthy_count trustworthy d sp)) as [Hgt|Hle].
    + split.
      * intros [k [Hk [Hc Hs]]]. apply elem_of_cons in Hk as [->|Hk].
        -- exists sp. simpl in Hs. injection Hs as Hs.
           split; [left|]. split; assumption.
        -- destruct (proj1 (IH (i + 1))) as [sp' [Hin H]]; [eauto|].
           exists sp'. split; [right; assumption|assumption].
      * intros [sp' [Hin [Hpk Hcnt]]]. apply elem_of_cons in Hin as [->|Hin].
        -- eexists. split; [left|]. simpl. rewrite Hpk. split; reflexivity.
        -- destruct (proj2 (IH (i + 1))) as [k [Hk H]]; [eauto|].
           exists k. split; [right; assumption|assumption].
    + rewrite IH. split.
      * intros [sp' [Hin H]]. exists sp'. split; [right; assumption|assumption].
      * intros [sp' [Hin [Hpk Hcnt]]]. apply elem_of_cons in Hin as [->|Hin].
        -- lia.
        -- exists sp'. auto.
Qed.

Example draft_class_rows_eleven :
  draft_class_rows (fun _ => true) eleven_images_db 1 1
    (species eleven_images_db)
  = [mkClass 1 1 1 (Some 7)].
Proof. vm_compute. reflexivity. Qed.

(** ** [SubmittedImage.specie] *)

Section Aggregation.

(** The queryset [first()] evaluates on Django up to 4.1. *)
Local Abbreviation by_pk rows :=
  (order_by [ColPk]
     (annotate_sum_confidence (values [ColSpecie] (mkQuerySet rows None false [])))).

Local Abbreviation own_group q :=
  (fun p : Prediction => (group_key q p, (p, confidence p)) : Group).

Lemma add_to_groups_fresh (k : list Z) (p : Prediction) (gs : list Group) :
  Forall (fun g : Group => fst g <> k) gs ->
  add_to_groups k p gs = gs ++ [(k, (p, confidence p))].
Proof.
  induction 1 as [|[k' [p' s]] gs Hk _ IH]; simpl; [reflexivity|].
  rewrite bool_decide_eq_false_2 by exact Hk. rewrite IH. reflexivity.
Qed.

(** Rows with pairwise different keys each make a group of their own. *)
Lemma fold_groups_distinct (q : QuerySet) (rows : list Prediction)
    (acc : list Group) :
  NoDup (map fst acc ++ map (group_key q) rows) ->
  fold_left (fun gs p => add_to_groups (group_key q p) p gs) rows acc
  = acc ++ map (own_group q) rows.
Proof.
  revert acc. induction rows as [|p rows IH]; intros acc Hnd; simpl.
  - rewrite app_nil_r. reflexivity.
  - rewrite add_to_groups_fresh.
    + rewrite IH.
      * rewrite <- app_assoc. reflexivity.
      * rewrite map_app. simpl. rewrite <- app_assoc. exact Hnd.
    + apply NoDup_app in Hnd as [_ [Hdis _]].
      apply Forall_forall. intros g Hg E.
      apply (Hdis (fst g)).
      * apply list_elem_of_fmap. exists g. split; [reflexivity|exact Hg].
      * rewrite E. left.
Qed.

Lemma pk_ascending_keys (rows0 rows : list Prediction) :
  pk_ascending rows -> NoDup (map (group_key (by_pk rows0)) rows).
Proof.
  induction 1 as [|p ps Hps IH Hlt]; simpl; constructor; [|exact IH].
  intros Hin. apply list_elem_of_fmap in Hin as [p' [E Hp']].
  unfold group_key in E. simpl in E. injection E as _ E.
  rewrite Forall_forall in Hlt. specialize (Hlt p' Hp'). lia.
Qed.

(** Sorting leaves a list that is in order as it is. *)
Lemma sort_groups_sorted (q : QuerySet) (gs : list Group) :
  StronglySorted
    (fun a b => key_leb (order_key q a) (order_key q b) = true) gs ->
  foldr (insert_group q) [] gs = gs.
Proof.
  induction 1 as [|g gs Hgs IH Hle]; simpl; [reflexivity|].
  rewrite IH. destruct gs as [|g' gs']; simpl; [reflexivity|].
  rewrite Forall_forall in Hle. rewrite (Hle g' (list_elem_of_here g' gs')).
  reflexivity.
Qed.

Lemma pk_ascending_sorted (rows0 rows : list Prediction) :
  pk_ascending rows ->
  StronglySorted
    (fun a b => key_leb (order_key (by_pk rows0) a) (order_key (by_pk rows0) b) = true)
    (map (own_group (by_pk rows0)) rows).
Proof.
  induction 1 as [|p ps Hps IH Hlt]; simpl; constructor; [exact IH|].
  apply Forall_forall. intros g Hg.
  apply list_elem_of_fmap in Hg as [p' [-> Hp']].
  rewrite Forall_forall in Hlt. specialize (Hlt p' Hp').
  unfold order_key. simpl. apply orb_true_iff. left. apply Z.ltb_lt. exact Hlt.
Qed.

(** Ordered by primary key, the aggregate has one row per prediction. *)
Lemma evaluate_by_pk (rows : list Prediction) :
  pk_ascending rows ->
  evaluate_qs (by_pk rows)
  = map (fun p => mkSpecieConf (prediction_specie p) (confidence p)) rows.
Proof.
  intros Hasc. unfold evaluate_qs, groups, sort_groups.
  cbn [qs_order_by qs_rows order_by annotate_sum_confidence values].
  rewrite (fold_groups_distinct (by_pk rows) rows []).
  - cbn [app]. rewrite sort_groups_sorted by (apply pk_ascending_sorted, Hasc).
    rewrite map_map. reflexivity.
  - apply pk_ascending_keys. exact Hasc.
Qed.

(** On Django up to 4.1 the accessor answers with the oldest prediction of
    the image: its species, and its own confidence under the name
    [tot_conf]. From 4.2 on it raises. *)
Lemma specie_is_oldest_prediction (d : Database) (image : SubmittedImage)
    (p : Prediction) (rest : list Prediction) :
  qs_rows (prediction_set d image) = p :: rest ->
  pk_ascending (p :: rest) ->
  specie DjangoLegacy d image
  = Ok (Some (mkSpecieConf (prediction_specie p) (confidence p))) /\
  specie Django42 d image = Raise TypeError.
Proof.
  intros Hrows Hasc. unfold specie, first. simpl in *.
  split; [|reflexivity].
  change (Ok (head (evaluate_qs
            (by_pk (filter (fun p => prediction_image p = image_pk image)
                           (predictions d)))))
          = Ok (Some (mkSpecieConf (prediction_specie p) (confidence p)))).
  rewrite Hrows. rewrite evaluate_by_pk by exact Hasc. reflexivity.
Qed.

End Aggregation.

(** C1. For the predictions (B, 0.5), (A, 0.6), (A, 0.3) of one image, in
    this order of primary key, species A (1) has the maximal summed
    confidence 0.9; the accessor answers B (2) with 0.5 on Django up to 4.1
    and raises on Django 4.2. *)
Theorem specie_not_max_summed_confidence :
  let image := mkImage 1 (lit "/srv/media/images/a.jpg") 1 1 in
  specie DjangoLegacy three_predictions_db image
  = Ok (Some (mkSpecieConf 2 500)) /\
  specie Django42 three_predictions_db image = Raise TypeError /\
  summed_confidence three_predictions 1 = 900 /\
  summed_confidence three_predictions 2 = 500 /\
  has_max_summed_confidence three_predictions 1 /\
  ~ has_max_summed_confidence three_predictions 2.
Proof.
  repeat split; try (vm_compute; reflexivity).
  - exists (mkPrediction 2 1 1 1 600). split; [|reflexivity].
    right. left.
  - intros p Hp. unfold three_predictions in Hp.
    repeat (apply elem_of_cons in Hp as [->|Hp]); [| | |inversion Hp];
      vm_compute; discriminate.
  - intros [_ H]. specialize (H (mkPrediction 2 1 1 1 600)).
    assert (Hin : mkPrediction 2 1 1 1 600 ∈ three_predictions)
      by (right; left).
    specialize (H Hin). vm_compute in H. apply H. reflexivity.
Qed.

(** With the rows of A stored first, as the specification lists them, the
    answer is A, but with 0.6 for the sum 0.9. *)
Example specie_spec_example :
  specie DjangoLegacy three_predictions_db' (mkImage 1 [] 1 1)
  = Ok (Some (mkSpecieConf 1 600)).
Proof. vm_compute. reflexivity. Qed.

(** Grouped by species alone, the sums are the ones the specification
    describes; the accessor never orders by them. *)
Example grouped_sums :
  evaluate_qs (annotate_sum_confidence
                 (values [ColSpecie]
                    (prediction_set three_predictions_db (mkImage 1 [] 1 1))))
  = [mkSpecieConf 2 500; mkSpecieConf 1 900].
Proof. vm_compute. reflexivity. Qed.

(** ** [Image.preprocess] *)

Section Preprocess.

Context `{R : Runtime}.

Lemma channels_shape {A} (h w c : nat) (img : list (list (list A))) :
  has_shape3 (S h) (S w) c img -> channels img = c.
Proof.
  intros [Hh Hrows]. destruct img as [|row img]; [discriminate|].
  apply Forall_cons_1 in Hrows as [[Hw Hpx] _].
  destruct row as [|px row]; [discriminate|].
  apply Forall_cons_1 in Hpx as [Hc _]. exact Hc.
Qed.

(** A pixel-wise change that keeps the pixel length keeps the shape. *)
Lemma has_shape3_map {A B} (g : list A -> list B) (h w c : nat)
    (img : list (list (list A))) :
  (forall px, length (g px) = length px) ->
  has_shape3 h w c img -> has_shape3 h w c (map (map g) img).
Proof.
  intros Hg [Hh Hrows]. split; [rewrite length_map; exact Hh|].
  apply Forall_fmap. eapply Forall_impl; [exact Hrows|].
  intros row [Hw Hpx]. simpl. split; [rewrite length_map; exact Hw|].
  apply Forall_fmap. eapply Forall_impl; [exact Hpx|].
  intros px Hc. simpl. rewrite Hg. exact Hc.
Qed.

Lemma at3_map {A B} (g : list A -> list B) (img : list (list (list A)))
    (y x c : nat) :
  at3 (map (map g) img) y x c
  = match img !! y with
    | Some row => match row !! x with Some px => g px !! c | None => None end
    | None => None
    end.
Proof.
  unfold at3. change (map (map g) img) with (map g <$> img).
  rewrite list_lookup_fmap.
  destruct (img !! y) as [row|]; simpl; [|reflexivity].
  change (map g row) with (g <$> row). rewrite list_lookup_fmap.
  destruct (row !! x); reflexivity.
Qed.

Lemma sub_channel_ok (k : nat) (c : Q) (img : list (list (list f32))) :
  (k < channels img)%nat ->
  sub_channel k c img = Ok (map (map (alter (fun x => f32_sub x c) k)) img).
Proof.
  intros Hk. unfold sub_channel.
  destruct (Nat.ltb_spec k (channels img)); [reflexivity|lia].
Qed.

Lemma swap_channels_ok {A} (img : list (list (list A))) :
  (2 < channels img)%nat -> swap_channels img = Ok (map (map swap_pixel) img).
Proof.
  intros Hk. unfold swap_channels.
  destruct (Nat.ltb_spec 2 (channels img)); [reflexivity|lia].
Qed.

Lemma length_swap_pixel {A} (px : list A) : length (swap_pixel px) = length px.
Proof. destruct px as [|r [|g [|b rest]]]; reflexivity. Qed.

(** Channel [c] of a row of pixels that all have it. *)
Lemma plane_row {A} (c : nat) (row : list (list A)) :
  Forall (fun px => (c < length px)%nat) row ->
  let pl := flat_map (fun px => option_list (px !! c)) row in
  length pl = length row /\
  forall x, pl !! x = match row !! x with Some px => px !! c | None => None end.
Proof.
  induction 1 as [|px row Hc _ [IHl IHx]]; simpl.
  - split; [reflexivity|]. intros x. reflexivity.
  - destruct (lookup_lt_is_Some_2 px c Hc) as [v Hv]. rewrite Hv. simpl.
    split; [rewrite IHl; reflexivity|].
    intros [|x]; simpl; [symmetry; exact Hv|apply IHx].
Qed.

(** The transposed array: its shape, and where each sample went. *)
Lemma transpose_201_spec {A} (h w c : nat) (img : list (list (list A))) :
  has_shape3 (S h) (S w) c img ->
  has_shape3 c (S h) (S w) (transpose_201 img) /\
  forall k y x, (k < c)%nat -> at3 (transpose_201 img) k y x = at3 img y x k.
Proof.
  intros Hs. unfold transpose_201. rewrite (channels_shape h w c img Hs).
  destruct Hs as [Hh Hrows]. split.
  - split; [rewrite length_map, length_seq; reflexivity|].
    apply Forall_fmap, Forall_forall. intros k Hk. apply elem_of_seq in Hk.
    simpl. unfold plane. split; [rewrite length_map; exact Hh|].
    apply Forall_fmap. eapply Forall_impl; [exact Hrows|].
    intros row [Hw Hpx]. simpl.
    assert (Hc : Forall (fun px => (k < length px)%nat) row).
    { eapply Forall_impl; [exact Hpx|]. intros px ->. lia. }
    destruct (plane_row k row Hc) as [Hl _]. rewrite Hl. exact Hw.
  - intros k y x Hk. unfold at3 at 1.
    change (map (fun c0 => plane c0 img) (seq 0 c))
      with ((fun c0 => plane c0 img) <$> seq 0 c).
    rewrite list_lookup_fmap, lookup_seq_lt by exact Hk. simpl.
    unfold plane, at3.
    change (map ?f img) with (f <$> img). rewrite list_lookup_fmap.
    destruct (img !! y) as [row|] eqn:Hy; simpl; [|reflexivity].
    rewrite Forall_forall in Hrows.
    apply list_elem_of_lookup_2 in Hy.
    destruct (Hrows row Hy) as [_ Hpx].
    assert (Hc : Forall (fun px => (k < length px)%nat) row).
    { eapply Forall_impl; [exact Hpx|]. intros px ->. exact Hk. }
    destruct (plane_row k row Hc) as [_ Hx]. apply Hx.
Qed.

(** What the three subtractions and the swap make of one RGB pixel. *)
Lemma normalised_pixel (px : list Z) (c : nat) (v : Z) :
  length px = 3%nat -> (c < 3)%nat -> px !! (2 - c)%nat = Some v ->
  swap_pixel
    (alter (fun x => f32_sub x (103939 # 1000)) 2%nat
       (alter (fun x => f32_sub x (116779 # 1000)) 1%nat
          (alter (fun x => f32_sub x (12368 # 100)) 0%nat
             (map astype_float32 px)))) !! c
  = Some (f32_sub (astype_float32 v) (channel_mean (2 - c))).
Proof.
  intros Hl Hc Hv.
  destruct px as [|r [|g [|b [|? ?]]]]; try discriminate Hl.
  destruct c as [|[|[|c]]]; [| | |lia]; simpl in *; congruence.
Qed.

Lemma map_map_pixels {A B C} (f : A -> B) (g : B -> C) (img : list (list A)) :
  map (map g) (map (map f) img) = map (map (fun px => g (f px))) img.
Proof.
  rewrite map_map. apply map_ext. intros row. apply map_map.
Qed.

Lemma at3_pixel {A} (img : list (list (list A))) (h w c : nat)
    (y x k : nat) (v : A) :
  has_shape3 h w c img -> at3 img y x k = Some v ->
  exists row px, img !! y = Some row /\ row !! x = Some px /\
                 px !! k = Some v /\ length px = c.
Proof.
  intros [_ Hrows] Hat. unfold at3 in Hat.
  destruct (img !! y) as [row|] eqn:Hy; [|discriminate].
  destruct (row !! x) as [px|] eqn:Hx; [|discriminate].
  exists row, px. repeat split; try assumption.
  rewrite Forall_forall in Hrows.
  apply list_elem_of_lookup_2 in Hy.
  destruct (Hrows row Hy) as [_ Hpx]. rewrite Forall_forall in Hpx.
  apply list_elem_of_lookup_2 in Hx. exact (Hpx px Hx).
Qed.

(** The array operations of [preprocess] after the conversion to
    [float32], up to the swap, on a picture of any height and width. *)
Lemma normalise_ok (h w : nat) (img : list (list (list f32))) :
  has_shape3 (S h) (S w) 3 img ->
  let a0 := alter (fun x : f32 => f32_sub x (12368 # 100)) 0%nat in
  let a1 := alter (fun x : f32 => f32_sub x (116779 # 1000)) 1%nat in
  let a2 := alter (fun x : f32 => f32_sub x (103939 # 1000)) 2%nat in
  let out := map (map (fun px => swap_pixel (a2 (a1 (a0 px))))) img in
  has_shape3 (S h) (S w) 3 out /\
  match sub_channel 0 (12368 # 100) img with
  | Ok i1 =>
      match sub_channel 1 (116779 # 1000) i1 with
      | Ok i2 =>
          match sub_channel 2 (103939 # 1000) i2 with
          | Ok i3 => swap_channels i3
          | Raise e => Raise e
          end
      | Raise e => Raise e
      end
  | Raise e => Raise e
  end = Ok out.
Proof.
  intros H0 a0 a1 a2 out.
  assert (H1 : has_shape3 (S h) (S w) 3 (map (map a0) img))
    by (apply has_shape3_map; [intros; apply length_alter|exact H0]).
  assert (H2 : has_shape3 (S h) (S w) 3 (map (map a1) (map (map a0) img)))
    by (apply has_shape3_map; [intros; apply length_alter|exact H1]).
  assert (H3 : has_shape3 (S h) (S w) 3
                 (map (map a2) (map (map a1) (map (map a0) img))))
    by (apply has_shape3_map; [intros; apply length_alter|exact H2]).
  split.
  - apply has_shape3_map; [|exact H0]. intros px. unfold a0, a1, a2.
    rewrite length_swap_pixel, !length_alter. reflexivity.
  - rewrite sub_channel_ok
      by (rewrite (channels_shape h w 3 img H0); repeat constructor).
    fold a0.
    rewrite sub_channel_ok
      by (rewrite (channels_shape h w 3 _ H1); repeat constructor).
    fold a1.
    rewrite sub_channel_ok
      by (rewrite (channels_shape h w 3 _ H2); repeat constructor).
    fold a2.
    rewrite swap_channels_ok
      by (rewrite (channels_shape h w 3 _ H3); repeat constructor).
    unfold out. rewrite !map_map_pixels. reflexivity.
Qed.

(** C9. When the file decodes and the resized picture is 224 by 224 RGB,
    [preprocess] returns a tensor of shape (1, 3, 224, 224); its channel
    [c] at row [y], column [x] is channel [2 - c] of the resized picture
    there, converted to [float32], minus the mean of channel [2 - c]:
    the means are subtracted in RGB order, then the channels are reversed,
    then moved to the front, then the batch axis is added. *)
Theorem preprocess_tensor (st : State Image) (raw resized : list (list (list Z)))
    (w : World) :
  imread_rgb (image_path (self st)) (world st) = (Ok raw, w) ->
  pil_resize raw (224, 224) = Ok resized ->
  has_shape3 224 224 3 resized ->
  exists t,
    fst (preprocess st) = Ok t /\
    has_shape4 1 3 224 224 t /\
    forall c y x v, (c < 3)%nat ->
      at3 resized y x (2 - c) = Some v ->
      at4 t 0 c y x
      = Some (f32_sub (astype_float32 v) (channel_mean (2 - c))).
Proof.
  intros Hread Hresize Hshape.
  assert (H0 : has_shape3 224 224 3 (map (map (map astype_float32)) resized))
    by (apply has_shape3_map; [intros; apply length_map|exact Hshape]).
  destruct (normalise_ok 223 223 _ H0) as [Hout Hrun]. cbv zeta in Hout, Hrun.
  set (out := map (map _) (map (map (map astype_float32)) resized)) in *.
  destruct (transpose_201_spec 223 223 3 out Hout) as [[Hl Hpl] Hat].
  exists (expand_dims0 (transpose_201 out)). split; [|split].
  - unfold preprocess. run. rewrite Hread. cbn [fst snd]. rewrite Hresize.
    cbn [fst snd].
    destruct (sub_channel 0 _ _) as [i1|e]; [|discriminate Hrun].
    destruct (sub_channel 1 _ i1) as [i2|e]; [|discriminate Hrun].
    destruct (sub_channel 2 _ i2) as [i3|e]; [|discriminate Hrun].
    rewrite Hrun. reflexivity.
  - split; [reflexivity|]. apply Forall_cons_2; [|apply Forall_nil_2].
    split; [exact Hl|exact Hpl].
  - intros c y x v Hc Hv.
    unfold at4, expand_dims0. cbn [lookup list_lookup]. rewrite (Hat c y x Hc).
    destruct (at3_pixel resized _ _ _ y x (2 - c)%nat v Hshape Hv)
      as [row [px [Hy [Hx [Hk Hlen]]]]].
    unfold out. rewrite map_map_pixels.
    rewrite at3_map, Hy, Hx.
    apply (normalised_pixel px c v Hlen Hc Hk).
Qed.

End Preprocess.

(** A picture of one colour, R = 200, G = 100, B = 50. *)
Lemma preprocess_tensor_witness :
  let s := with_picture [[[200; 100; 50]]] calm in
  exists t,
    fst (preprocess (H := scripted s) (start s image_a empty_db)) = Ok t /\
    has_shape4 1 3 224 224 t /\
    at4 t 0 0 5 7 = Some (inject_Z 50 - (103939 # 1000))%Q /\
    at4 t 0 1 5 7 = Some (inject_Z 100 - (116779 # 1000))%Q /\
    at4 t 0 2 5 7 = Some (inject_Z 200 - (12368 # 100))%Q.
Proof.
  intros s.
  pose (resized := replicate 224 (replicate 224 [200; 100; 50])).
  assert (Hshape : has_shape3 224 224 3 resized).
  { split; [apply length_replicate|]. apply Forall_replicate.
    split; [apply length_replicate|]. apply Forall_replicate. reflexivity. }
  pose proof (preprocess_tensor (R := scripted s) (start s image_a empty_db)
                [[[200; 100; 50]]] resized 1%nat) as H.
  assert (Hread : imread_rgb (Runtime := scripted s)
                    (image_path (self (start s image_a empty_db)))
                    (world (start s image_a empty_db))
                  = (Ok [[[200; 100; 50]]], 1%nat))
    by (vm_compute; reflexivity).
  assert (Hresize : pil_resize (Runtime := scripted s) [[[200; 100; 50]]]
                      (224, 224) = Ok resized)
    by (vm_compute; reflexivity).
  destruct (H Hread Hresize Hshape) as [t [Ht [Hs Hat]]].
  exists t. split; [exact Ht|]. split; [exact Hs|].
  split; [|split].
  - apply (Hat 0%nat 5%nat 7%nat 50); [lia|vm_compute; reflexivity].
  - apply (Hat 1%nat 5%nat 7%nat 100); [lia|vm_compute; reflexivity].
  - apply (Hat 2%nat 5%nat 7%nat 200); [lia|vm_compute; reflexivity].
Defined.

(** * Further properties *)

(** ** Clean names are in normal form *)

(** [split] undoes [join] on tokens. *)
Lemma split_join_tokens (toks : list str) :
  Forall is_token toks -> split (join (lit " ") toks) = toks.
Proof.
  induction 1 as [|t toks Ht Htoks IH]; [reflexivity|].
  destruct toks as [|t' toks].
  - simpl. apply split_token_end. exact Ht.
  - change (join (lit " ") (t :: t' :: toks))
      with (t ++ 32%N :: join (lit " ") (t' :: toks)).
    rewrite split_token_blank by (assumption || reflexivity).
    rewrite IH. reflexivity.
Qed.

Lemma split_tokens (s : str) : Forall is_token (split s).
Proof. apply (Tokens_are_tokens s). apply Tokens_split. Qed.

(** Whatever [clean_name] returns is the single-space join of its own
    tokens, of which there are at most two, and exactly one for a rank
    other than 8: no leading, trailing or repeated blank survives. *)
Theorem clean_name_normal_form (t : Taxon) (n : str) :
  clean_name t = Ok n ->
  join (lit " ") (split n) = n /\
  (length (split n) <= 2)%nat /\
  (rank_id (rank t) <> 8 -> length (split n) = 1%nat).
Proof.
  unfold clean_name. pose proof (split_tokens (name t)) as Htoks.
  destruct (Z.eqb_spec (rank_id (rank t)) 8) as [E|E]; simpl.
  - intros [= <-].
    rewrite split_join_tokens by (apply Forall_take; exact Htoks).
    split; [reflexivity|]. split; [|contradiction].
    rewrite length_take. lia.
  - destruct (split (name t)) as [|tok rest]; simpl; [discriminate|].
    intros [= <-]. apply Forall_cons_1 in Htoks as [Htok _].
    rewrite (split_token_end tok Htok). simpl.
    split; [reflexivity|]. split; [lia|reflexivity].
Qed.

Lemma clean_name_normal_form_witness :
  clean_name homo_sapiens = Ok (lit "Homo sapiens") /\
  join (lit " ") (split (lit "Homo sapiens")) = lit "Homo sapiens".
Proof.
  assert (H : clean_name homo_sapiens = Ok (lit "Homo sapiens"))
    by (vm_compute; reflexivity).
  split; [exact H|].
  exact (proj1 (clean_name_normal_form homo_sapiens _ H)).
Defined.

(** Renaming a taxon to its clean name does not change its clean name. *)
Theorem clean_name_idempotent (t : Taxon) (n : str) :
  clean_name t = Ok n ->
  clean_name (mkTaxon (tax_id t) n (sup_taxon t) (rank t)) = Ok n.
Proof.
  unfold clean_name. simpl. pose proof (split_tokens (name t)) as Htoks.
  destruct (Z.eqb_spec (rank_id (rank t)) 8) as [E|E]; simpl.
  - intros [= <-].
    rewrite split_join_tokens by (apply Forall_take; exact Htoks).
    rewrite take_take. reflexivity.
  - destruct (split (name t)) as [|tok rest]; simpl; [discriminate|].
    intros [= <-]. apply Forall_cons_1 in Htoks as [Htok _].
    rewrite (split_token_end tok Htok). reflexivity.
Qed.

Lemma clean_name_idempotent_witness :
  clean_name homo_sapiens = Ok (lit "Homo sapiens") /\
  clean_name (mkTaxon None (lit "Homo sapiens") None species_rank)
  = Ok (lit "Homo sapiens").
Proof.
  assert (H : clean_name homo_sapiens = Ok (lit "Homo sapiens"))
    by (vm_compute; reflexivity).
  split; [exact H|]. exact (clean_name_idempotent homo_sapiens _ H).
Defined.

(** ** The taxonomy lookup and [Taxon.save] *)

Section TaxonomyMore.

Context `{R : Runtime}.

(** A response with a positive count: the answer is the first [Id] of the
    [IdList]. *)
Lemma id_of_response_positive (root count idlist id : Element) (n k : Z) :
  find (lit "Count") root = Some count ->
  int_of_str (el_text count) = Ok n -> 0 < n ->
  find (lit "IdList") root = Some idlist ->
  find (lit "Id") idlist = Some id ->
  int_of_str (el_text id) = Ok k ->
  id_of_response root = Ok (Some k).
Proof.
  intros Hc Hn Hpos Hl Hi Hk. unfold id_of_response.
  rewrite Hc. cbn [attr_of]. rewrite Hn.
  destruct (Z.ltb_spec 0 n) as [_|Hle]; [|lia].
  rewrite Hl. cbn [attr_of]. rewrite Hi. cbn [attr_of]. rewrite Hk.
  reflexivity.
Qed.

(** A positive count makes [get_id_from_name] return the first listed id,
    after exactly one request, for the URL that ends in the name as given
    (nothing is escaped). *)
Theorem get_id_from_name_positive {Self : Type} (st : State Self)
    (name body : str) (w : World) (root count idlist id : Element) (n k : Z) :
  requests_get_content (esearch_url name) (world st) = (Ok body, w) ->
  fromstring body = Ok root ->
  find (lit "Count") root = Some count ->
  int_of_str (el_text count) = Ok n -> 0 < n ->
  find (lit "IdList") root = Some idlist ->
  find (lit "Id") idlist = Some id ->
  int_of_str (el_text id) = Ok k ->
  get_id_from_name name st
  = (Ok (Some k), after_call (RequestsGet (esearch_url name)) w st).
Proof.
  intros Hget Hparse Hc Hn Hpos Hl Hi Hk.
  unfold get_id_from_name. run. rewrite Hget, Hparse.
  rewrite (id_of_response_positive root count idlist id n k) by assumption.
  reflexivity.
Qed.

(** A response that lacks what the code reads from it is an
    [AttributeError]: no [Count] element, or a positive count with no
    [IdList], or an [IdList] with no [Id]. *)
Theorem id_of_response_incomplete (root : Element) :
  (find (lit "Count") root = None ->
   id_of_response root = Raise AttributeError) /\
  (forall count n,
     find (lit "Count") root = Some count ->
     int_of_str (el_text count) = Ok n -> 0 < n ->
     find (lit "IdList") root = None \/
     (exists idlist, find (lit "IdList") root = Some idlist /\
                     find (lit "Id") idlist = None) ->
     id_of_response root = Raise AttributeError).
Proof.
  unfold id_of_response. split.
  - intros ->. reflexivity.
  - intros count n -> Hn Hpos H. cbn [attr_of]. rewrite Hn.
    destruct (Z.ltb_spec 0 n) as [_|Hle]; [|lia].
    destruct H as [Hl|[idlist [Hl Hi]]]; rewrite Hl; cbn [attr_of];
      [|rewrite Hi]; reflexivity.
Qed.

(** A failed request is the failure of [get_id_from_name]; the body is
    never parsed. *)
Lemma get_id_from_name_request_fails {Self : Type} (st : State Self)
    (name : str) (e : exn) (w : World) :
  requests_get_content (esearch_url name) (world st) = (Raise e, w) ->
  get_id_from_name name st
  = (Raise e, after_call (RequestsGet (esearch_url name)) w st).
Proof.
  intros Hget. unfold get_id_from_name. run. rewrite Hget. reflexivity.
Qed.

(** [get_id_from_name] makes one request and changes nothing else. *)
Lemma get_id_from_name_state {Self : Type} (st : State Self) (name : str) :
  exists w,
    snd (get_id_from_name name st)
    = after_call (RequestsGet (esearch_url name)) w st.
Proof.
  unfold get_id_from_name. run.
  destruct (requests_get_content _ _) as [[body|e] w]; simpl.
  - exists w. destruct (fromstring body) as [root|e]; simpl; [|reflexivity].
    destruct (id_of_response root); reflexivity.
  - exists w. reflexivity.
Qed.

(** When the lookup of an id-less taxon raises, [save] raises the same
    error in the same state: the taxon is not written, and the object keeps
    all its fields. *)
Theorem save_aborts_on_failed_lookup (st st' : State Taxon) (e : exn) :
  tax_id (self st) = None ->
  set_id_from_name st = (Raise e, st') ->
  save st = (Raise e, st') /\
  self st' = self st /\
  (trace st' = trace st \/
   exists url, trace st' = trace st ++ [RequestsGet url]).
Proof.
  intros Hid Hset. split; [|split].
  - unfold save. run. rewrite bool_decide_eq_true_2 by assumption.
    rewrite Hset. reflexivity.
  - revert Hset. unfold set_id_from_name. run.
    destruct (clean_name (self st)) as [n|e0]; simpl.
    + destruct (get_id_from_name_state st n) as [w Hw].
      destruct (get_id_from_name n st) as [[i|e1] st1]; simpl in *.
      * discriminate.
      * intros [= _ <-]. rewrite Hw. reflexivity.
    + intros [= _ <-]. destruct st; reflexivity.
  - revert Hset. unfold set_id_from_name. run.
    destruct (clean_name (self st)) as [n|e0]; simpl.
    + destruct (get_id_from_name_state st n) as [w Hw].
      destruct (get_id_from_name n st) as [[i|e1] st1]; simpl in *.
      * discriminate.
      * intros [= _ <-]. rewrite Hw. right. eexists. reflexivity.
    + intros [= _ <-]. left. reflexivity.
Qed.

(** [save] of an id-less taxon of a rank other than 8 whose name is blank
    raises [IndexError] before any request or write. *)
Theorem save_blank_name (st : State Taxon) :
  tax_id (self st) = None ->
  rank_id (rank (self st)) <> 8 ->
  is_blank (name (self st)) ->
  save st = (Raise IndexError, st).
Proof.
  intros Hid Hrank Hblank. unfold save, set_id_from_name. run.
  rewrite bool_decide_eq_true_2 by assumption.
  unfold clean_name. rewrite (split_blank _ Hblank).
  destruct (Z.eqb_spec (rank_id (rank (self st))) 8); [contradiction|].
  simpl. destruct st; reflexivity.
Qed.

(** A successful [save] of an id-less taxon: one request for the clean
    name, then one write of the taxon carrying the answer, be it an id or
    [None]. *)
Theorem save_looks_up_then_writes (st : State Taxon) (n body : str)
    (root : Element) (i : option Z) (w w' : World) :
  tax_id (self st) = None ->
  clean_name (self st) = Ok n ->
  requests_get_content (esearch_url n) (world st) = (Ok body, w) ->
  fromstring body = Ok root ->
  id_of_response root = Ok i ->
  django_save (with_tax_id (self st) i) w = (Ok tt, w') ->
  save st
  = (Ok tt,
     mkState (with_tax_id (self st) i) (db st) w'
       (trace st ++ [RequestsGet (esearch_url n);
                     DbSaveTaxon (with_tax_id (self st) i)])).
Proof.
  intros Hid Hn Hget Hparse Hresp Hsave.
  unfold save, set_id_from_name, super_save, get_id_from_name. run.
  rewrite bool_decide_eq_true_2 by assumption.
  rewrite Hn. simpl. rewrite Hget. simpl. rewrite Hparse. simpl.
  rewrite Hresp. simpl. rewrite Hsave. simpl.
  rewrite <- app_assoc. reflexivity.
Qed.

(** [save] never changes the name, the rank or the parent of the taxon,
    and never changes an id that is set. *)
Theorem save_keeps_fields (st : State Taxon) :
  let t' := self (snd (save st)) in
  name t' = name (self st) /\
  rank t' = rank (self st) /\
  sup_taxon t' = sup_taxon (self st) /\
  (forall i, tax_id (self st) = Some i -> tax_id t' = Some i).
Proof.
  unfold save, set_id_from_name, super_save, get_id_from_name. run.
  destruct (tax_id (self st)) as [i|] eqn:Hid; simpl.
  - destruct (django_save _ _) as [[[]|e] w]; simpl; rewrite ?Hid; auto.
  - destruct (clean_name (self st)) as [n|e]; simpl;
      [|repeat split; discriminate].
    destruct (requests_get_content _ _) as [[body|e] w]; simpl;
      [|repeat split; discriminate].
    destruct (fromstring body) as [root|e]; simpl;
      [|repeat split; discriminate].
    destruct (id_of_response root) as [i|e]; simpl;
      [|repeat split; discriminate].
    destruct (django_save _ _) as [[[]|e] w']; simpl;
      repeat split; discriminate.
Qed.

End TaxonomyMore.

Lemma get_id_from_name_positive_witness :
  let s := with_page one_match_page calm in
  get_id_from_name (H := scripted s) (lit "Homo sapiens")
    (start s homo_sapiens empty_db)
  = (Ok (Some 9606),
     @mkState (scripted s) Taxon homo_sapiens empty_db 1%nat
       [RequestsGet (esearch_url (lit "Homo sapiens"))]).
Proof.
  intros s.
  apply (get_id_from_name_positive (R := scripted s)
           (start s homo_sapiens empty_db) (lit "Homo sapiens") [] 1%nat
           one_match_page
           (El (lit "Count") (Some (lit "1")) [])
           (El (lit "IdList") None [El (lit "Id") (Some (lit "9606")) []])
           (El (lit "Id") (Some (lit "9606")) []) 1 9606);
    solve [vm_compute; reflexivity | lia].
Defined.

Lemma id_of_response_incomplete_witness :
  id_of_response (H := scripted calm) (script_page calm) = Raise AttributeError /\
  id_of_response (H := scripted calm) count_only_page = Raise AttributeError.
Proof.
  split.
  - apply (proj1 (id_of_response_incomplete (R := scripted calm) _)).
    vm_compute. reflexivity.
  - apply (proj2 (id_of_response_incomplete (R := scripted calm) count_only_page)
             (El (lit "Count") (Some (lit "2")) []) 2);
      [vm_compute; reflexivity|vm_compute; reflexivity|lia|].
    left. vm_compute. reflexivity.
Defined.

(** The request fails: the taxon is not written. *)
Lemma save_aborts_on_failed_lookup_witness :
  let s := failing_at 0 (LibraryError 7) calm in
  save (H := scripted s) (start s homo_sapiens empty_db)
  = (Raise (LibraryError 7),
     @mkState (scripted s) Taxon homo_sapiens empty_db 1%nat
       [RequestsGet (esearch_url (lit "Homo sapiens"))]).
Proof.
  intros s.
  apply (save_aborts_on_failed_lookup (R := scripted s)
           (start s homo_sapiens empty_db)); vm_compute; reflexivity.
Defined.

Lemma save_blank_name_witness :
  save (H := scripted calm) (start calm blank_genus empty_db)
  = (Raise IndexError, start calm blank_genus empty_db).
Proof.
  apply (save_blank_name (R := scripted calm)).
  - reflexivity.
  - vm_compute. discriminate.
  - repeat constructor.
Defined.

Lemma save_looks_up_then_writes_witness :
  let s := with_page no_match_page calm in
  save (H := scripted s) (start s homo_sapiens empty_db)
  = (Ok tt,
     @mkState (scripted s) Taxon homo_sapiens empty_db 2%nat
       [RequestsGet (esearch_url (lit "Homo sapiens"));
        DbSaveTaxon homo_sapiens]).
Proof.
  intros s.
  apply (save_looks_up_then_writes (R := scripted s)
           (start s homo_sapiens empty_db) (lit "Homo sapiens") []
           no_match_page None 1%nat 2%nat); vm_compute; reflexivity.
Defined.

Lemma save_keeps_fields_witness :
  let s := with_page one_match_page calm in
  tax_id (self (snd (save (H := scripted s) (start s hominidae empty_db))))
  = Some 9604.
Proof.
  intros s.
  apply (save_keeps_fields (R := scripted s) (start s hominidae empty_db)).
  reflexivity.
Defined.

(** ** More on the life cycle of a [CNN] *)

Section LifecycleMore.

Context `{R : Runtime}.

(** Case analysis on the library calls of a method, in the order they are
    made. *)
Ltac next_call :=
  match goal with
  | |- context [create_model ?a ?w] =>
      destruct (create_model a w) as [[?|?] ?] eqn:?
  | |- context [model_compile ?m ?o ?l ?w] =>
      destruct (model_compile m o l w) as [[?|?] ?] eqn:?
  | |- context [load_weights ?m ?p ?w] =>
      destruct (load_weights m p w) as [[?|?] ?] eqn:?
  | |- context [fit ?m ?i ?l ?n ?w] =>
      destruct (fit m i l n w) as [[?|?] ?] eqn:?
  | |- context [evaluate ?m ?i ?l ?w] =>
      destruct (evaluate m i l w) as [[?|?] ?] eqn:?
  | |- context [predict ?m ?i ?w] =>
      destruct (predict m i w) as [[?|?] ?] eqn:?
  | |- context [os_mkdir ?p ?w] =>
      destruct (os_mkdir p w) as [[[]|?] ?] eqn:?
  | |- context [model_save ?m ?p ?w] =>
      destruct (model_save m p w) as [[[]|?] ?] eqn:?
  end; simpl.

(** A [train] that returns has made six library calls, in this order:
    build the model, compile it, fit for 10 epochs on the images and labels
    the object already held, evaluate, make the directory, save. The object
    then holds the fitted model, the second number [evaluate] returned as
    its accuracy, and the path; the database is as it was. *)
Theorem train_returns (td : option (list GroundTruthImage))
    (st st' : State CNN) :
  train td st = (Ok tt, st') ->
  exists m0 m1 m2 r d w0 w1 w2 w3,
    let c := self st in
    let a := architecture c in
    let o := annotation_name (optimizer a) in
    let l := annotation_name (loss a) in
    let p := weights_path MEDIA_ROOT (architecture_name a) d in
    create_model (model_code a) (world st) = (Ok m0, w0) /\
    model_compile m0 o l w0 = (Ok m1, w1) /\
    fit m1 (train_images c) (train_labels c) 10 w1 = (Ok m2, w2) /\
    evaluate m2 (test_images c) (test_labels c) w2 = (Ok r, w3) /\
    date c = Some d /\
    trace st' = trace st ++ [CreateModel (model_code a); ModelCompile o l;
                             Fit 10; Evaluate; OsMkdir p; ModelSave p] /\
    self st' = set_available true
                 (set_learning_data (Some p)
                    (set_accuracy (Some (snd r))
                       (set_nn_model (Some m2) c))) /\
    db st' = db st.
Proof.
  unfold train, architecture_compile, split_images, save_model. run.
  next_call; [|discriminate]. next_call; [|discriminate].
  next_call; [|discriminate]. next_call; [|discriminate].
  destruct (date (self st)) as [d|] eqn:Hd; simpl; [|discriminate].
  next_call; [|discriminate]. next_call; [|discriminate].
  intros [= <-]. do 9 eexists. simpl.
  repeat split; try eassumption.
  rewrite <- !app_assoc. reflexivity.
Qed.

(** Whatever happens, [train] leaves the database, the key, the date, the
    architecture and the four data attributes of the classifier as they
    were: it creates no row and supplies no training data. *)
Theorem train_keeps (td : option (list GroundTruthImage)) (st : State CNN) :
  let st' := snd (train td st) in
  db st' = db st /\
  cnn_pk (self st') = cnn_pk (self st) /\
  date (self st') = date (self st) /\
  architecture (self st') = architecture (self st) /\
  train_images (self st') = train_images (self st) /\
  train_labels (self st') = train_labels (self st) /\
  test_images (self st') = test_images (self st) /\
  test_labels (self st') = test_labels (self st).
Proof.
  unfold train, architecture_compile, split_images, save_model. run.
  next_call; [|repeat split]. next_call; [|repeat split].
  next_call; [|repeat split]. next_call; [|repeat split].
  destruct (date (self st)) as [d|] eqn:Hd; simpl;
    [|rewrite ?Hd; repeat split].
  next_call; [|rewrite ?Hd; repeat split].
  next_call; rewrite ?Hd; repeat split.
Qed.

(** When [fit] raises, the freshly compiled model has already replaced the
    one the classifier held; accuracy, path and [available] are as before,
    and nothing was written. *)
Theorem train_fit_fails (td : option (list GroundTruthImage)) (st : State CNN)
    (m0 m1 : Model) (e : exn) (w0 w1 w2 : World) :
  let c := self st in
  let a := architecture c in
  let o := annotation_name (optimizer a) in
  let l := annotation_name (loss a) in
  create_model (model_code a) (world st) = (Ok m0, w0) ->
  model_compile m0 o l w0 = (Ok m1, w1) ->
  fit m1 (train_images c) (train_labels c) 10 w1 = (Raise e, w2) ->
  train td st
  = (Raise e,
     mkState (set_nn_model (Some m1) c) (db st) w2
       (trace st ++ [CreateModel (model_code a); ModelCompile o l; Fit 10])).
Proof.
  intros c a o l Hcreate Hcompile Hfit.
  unfold train, architecture_compile, split_images. run.
  fold c a o l. rewrite Hcreate. simpl. rewrite Hcompile. simpl.
  rewrite Hfit. simpl. rewrite <- !app_assoc. reflexivity.
Qed.

(** With a model resident, [classify] on an available classifier makes one
    library call, [predict], and leaves the object alone. *)
Theorem classify_resident (images : list Image) (st : State CNN) (m : Model) :
  available (self st) = true ->
  nn_model (self st) = Some m ->
  classify images st
  = (match fst (predict m images (world st)) with
     | Ok p =>
         match ndarray_argmax p with
         | Ok _ => Ok None
         | Raise e => Raise e
         end
     | Raise e => Raise e
     end,
     after_call (Predict images) (snd (predict m images (world st))) st).
Proof.
  intros Ha Hm. unfold classify. run. rewrite Ha, Hm. simpl. rewrite Hm.
  simpl. destruct (predict m images (world st)) as [[p|e] w]; simpl.
  - destruct (ndarray_argmax p); reflexivity.
  - reflexivity.
Qed.

(** With no model resident, [classify] first builds and compiles the
    architecture and loads the weights from [learning_data], keeps the
    loaded model, and then predicts with it. *)
Theorem classify_loads (images : list Image) (st : State CNN)
    (m0 m1 m2 : Model) (w0 w1 w2 : World) :
  let c := self st in
  let a := architecture c in
  let o := annotation_name (optimizer a) in
  let l := annotation_name (loss a) in
  available c = true ->
  nn_model c = None ->
  create_model (model_code a) (world st) = (Ok m0, w0) ->
  model_compile m0 o l w0 = (Ok m1, w1) ->
  load_weights m1 (learning_data c) w1 = (Ok m2, w2) ->
  snd (classify images st)
  = mkState (set_nn_model (Some m2) c) (db st)
      (snd (predict m2 images w2))
      (trace st ++ [CreateModel (model_code a); ModelCompile o l;
                    LoadWeights (learning_data c); Predict images]).
Proof.
  intros c a o l Ha Hm Hcreate Hcompile Hload. subst c a o l.
  unfold classify, architecture_compile. run.
  rewrite Ha, Hm. simpl. rewrite Hcreate. simpl. rewrite Hcompile. simpl.
  rewrite Hload. simpl.
  destruct (predict m2 images w2) as [[p|e] w]; simpl.
  - destruct (ndarray_argmax p); simpl; rewrite <- !app_assoc; reflexivity.
  - rewrite <- !app_assoc. reflexivity.
Qed.

(** A [classify] that returned leaves the classifier available with a
    model resident. *)
Lemma classify_ok_resident (images : list Image) (st st' : State CNN)
    (v : option (list (option Z))) :
  classify images st = (Ok v, st') ->
  available (self st') = true /\ exists m, nn_model (self st') = Some m.
Proof.
  unfold classify, architecture_compile. run.
  destruct (available (self st)) eqn:Ha; simpl; [|discriminate].
  destruct (nn_model (self st)) as [m|] eqn:Hm; simpl; rewrite ?Hm; simpl.
  - next_call; [|discriminate].
    destruct (ndarray_argmax _); simpl; [|discriminate].
    intros [= _ <-]. simpl. eauto.
  - next_call; [|discriminate]. next_call; [|discriminate].
    next_call; [|discriminate]. next_call; [|discriminate].
    destruct (ndarray_argmax _); simpl; [|discriminate].
    intros [= _ <-]. simpl. eauto.
Qed.

(** The model is loaded once: after a [classify] that returned, the next
    [classify] only predicts. *)
Theorem classify_again (images images' : list Image) (st st' : State CNN)
    (v : option (list (option Z))) :
  classify images st = (Ok v, st') ->
  trace (snd (classify images' st')) = trace st' ++ [Predict images'] /\
  self (snd (classify images' st')) = self st'.
Proof.
  intros H. destruct (classify_ok_resident images st st' v H) as [Ha [m Hm]].
  rewrite (classify_resident images' st' m Ha Hm). split; reflexivity.
Qed.

(** Scores with nothing in them, as for an empty batch, make [classify]
    raise [ValueError]. *)
Theorem classify_no_scores (images : list Image) (st : State CNN) (m : Model)
    (p : list (list Score)) (w : World) :
  available (self st) = true ->
  nn_model (self st) = Some m ->
  predict m images (world st) = (Ok p, w) ->
  concat p = [] ->
  fst (classify images st) = Raise ValueError.
Proof.
  intros Ha Hm Hp He. rewrite (classify_resident images st m Ha Hm).
  rewrite Hp. simpl. unfold ndarray_argmax. rewrite He. reflexivity.
Qed.

(** When the directory cannot be made, [save_model] has already put the
    path into [learning_data]; the model is not saved. *)
Theorem save_model_mkdir_fails (st : State CNN) (d : DateTime) (e : exn)
    (w : World) :
  let p := weights_path MEDIA_ROOT
             (architecture_name (architecture (self st))) d in
  date (self st) = Some d ->
  os_mkdir p (world st) = (Raise e, w) ->
  save_model st
  = (Raise e,
     mkState (set_learning_data (Some p) (self st)) (db st) w
       (trace st ++ [OsMkdir p])).
Proof.
  intros p Hd Hmk. unfold save_model. run. rewrite Hd. simpl.
  fold p. rewrite Hmk. reflexivity.
Qed.

(** A classifier that was never saved has no date: [save_model] raises
    [AttributeError] and has done nothing. *)
Theorem save_model_without_date (st : State CNN) :
  date (self st) = None -> save_model st = (Raise AttributeError, st).
Proof.
  intros Hd. unfold save_model. run. rewrite Hd. simpl.
  destruct st; reflexivity.
Qed.

End LifecycleMore.

Lemma train_returns_witness :
  let st := start calm (sample_cnn calm googlenet false None) empty_db in
  let st' := snd (train (H := scripted calm) None st) in
  db st' = db st /\ length (trace st') = 6%nat.
Proof.
  intros st st'.
  assert (H : train (H := scripted calm) None st = (Ok tt, st'))
    by (vm_compute; reflexivity).
  destruct (train_returns (R := scripted calm) None st st' H)
    as (m0 & m1 & m2 & r & d & w0 & w1 & w2 & w3 & _ & _ & _ & _ & _
        & Ht & _ & Hdb).
  split; [exact Hdb|]. rewrite Ht. reflexivity.
Defined.

Lemma train_fit_fails_witness :
  let s := failing_at 2 (LibraryError 2) calm in
  let st := start s (sample_cnn s googlenet true (Some 41%nat)) empty_db in
  let '(r, st') := train (H := scripted s) None st in
  r = Raise (LibraryError 2) /\
  nn_model (self st') = Some 0%nat /\ available (self st') = true.
Proof.
  intros s st.
  assert (H1 : create_model (Runtime := scripted s)
                 (model_code (architecture (self st))) (world st)
               = (Ok 0%nat, 1%nat)) by (vm_compute; reflexivity).
  assert (H2 : model_compile (Runtime := scripted s) 0%nat
                 (annotation_name (optimizer (architecture (self st))))
                 (annotation_name (loss (architecture (self st)))) 1%nat
               = (Ok 0%nat, 2%nat)) by (vm_compute; reflexivity).
  assert (H3 : fit (Runtime := scripted s) 0%nat (train_images (self st))
                 (train_labels (self st)) 10 2%nat
               = (Raise (LibraryError 2), 3%nat)) by (vm_compute; reflexivity).
  rewrite (train_fit_fails (R := scripted s) None st _ _ _ _ _ _ H1 H2 H3).
  repeat split; reflexivity.
Defined.

Lemma classify_resident_witness :
  let s := with_scores [[100; 900; 0]] calm in
  let st := start s (sample_cnn s googlenet true (Some 0%nat)) classes_db in
  trace (snd (classify (H := scripted s) [image_a] st)) = [Predict [image_a]].
Proof.
  intros s st.
  rewrite (classify_resident (R := scripted s) [image_a] st 0%nat
             eq_refl eq_refl).
  reflexivity.
Defined.

Lemma classify_loads_witness :
  let s := with_scores [[100; 900; 0]] calm in
  let st := start s (sample_cnn s googlenet true None) classes_db in
  trace (snd (classify (H := scripted s) [image_a] st))
  = [CreateModel (lit "models_scripts/googlenet.py");
     ModelCompile (lit "adam") (lit "categorical_crossentropy");
     LoadWeights None; Predict [image_a]].
Proof.
  intros s st.
  assert (H1 : create_model (Runtime := scripted s)
                 (model_code (architecture (self st))) (world st)
               = (Ok 0%nat, 1%nat)) by (vm_compute; reflexivity).
  assert (H2 : model_compile (Runtime := scripted s) 0%nat
                 (annotation_name (optimizer (architecture (self st))))
                 (annotation_name (loss (architecture (self st)))) 1%nat
               = (Ok 0%nat, 2%nat)) by (vm_compute; reflexivity).
  assert (H3 : load_weights (Runtime := scripted s) 0%nat
                 (learning_data (self st)) 2%nat
               = (Ok 0%nat, 3%nat)) by (vm_compute; reflexivity).
  rewrite (classify_loads (R := scripted s) [image_a] st _ _ _ _ _ _
             eq_refl eq_refl H1 H2 H3).
  vm_compute. reflexivity.
Defined.

Lemma classify_again_witness :
  let s := with_scores [[100; 900; 0]] calm in
  let st := start s (sample_cnn s googlenet true None) classes_db in
  let st' := snd (classify (H := scripted s) [image_a] st) in
  trace (snd (classify (H := scripted s) [image_b] st'))
  = trace st' ++ [Predict [image_b]].
Proof.
  intros s st st'.
  assert (H : classify (H := scripted s) [image_a] st = (Ok None, st'))
    by (vm_compute; reflexivity).
  exact (proj1 (classify_again (R := scripted s) [image_a] [image_b]
                  st st' None H)).
Defined.

Lemma classify_no_scores_witness :
  let st := start calm (sample_cnn calm googlenet true (Some 0%nat)) classes_db in
  fst (classify (H := scripted calm) [] st) = Raise ValueError.
Proof.
  intros st.
  apply (classify_no_scores (R := scripted calm) [] st 0%nat [] 1%nat);
    vm_compute; reflexivity.
Defined.

Lemma save_model_mkdir_fails_witness :
  let s := failing_at 0 (LibraryError 17) calm in
  let st := start s (sample_cnn s googlenet false (Some 0%nat)) empty_db in
  let '(r, st') := save_model (H := scripted s) st in
  r = Raise (LibraryError 17) /\
  learning_data (self st')
  = Some (lit "/srv/media/training_datas/GoogLeNet_2020_3_14_15") /\
  trace st'
  = [OsMkdir (lit "/srv/media/training_datas/GoogLeNet_2020_3_14_15")].
Proof.
  intros s st.
  assert (Hd : date (self st) = Some pi_day) by reflexivity.
  assert (Hm : os_mkdir (Runtime := scripted s)
                 (weights_path (MEDIA_ROOT (Runtime := scripted s))
                    (architecture_name (architecture (self st))) pi_day)
                 (world st)
               = (Raise (LibraryError 17), 1%nat))
    by (vm_compute; reflexivity).
  rewrite (save_model_mkdir_fails (R := scripted s) st pi_day _ _ Hd Hm).
  vm_compute. repeat split; reflexivity.
Defined.

Lemma save_model_without_date_witness :
  let c := @mkCNN (scripted calm) None None None (lit "new") googlenet None
                  false (Some 0%nat) None None None None in
  save_model (H := scripted calm) (start calm c empty_db)
  = (Raise AttributeError, start calm c empty_db).
Proof.
  intros c. apply (save_model_without_date (R := scripted calm)). reflexivity.
Defined.

(** ** More on [SubmittedImage.specie] *)

Lemma specie_is_oldest_prediction_witness :
  specie DjangoLegacy three_predictions_db image_a
  = Ok (Some (mkSpecieConf 2 500)) /\
  specie Django42 three_predictions_db image_a = Raise TypeError.
Proof.
  apply (specie_is_oldest_prediction three_predictions_db image_a
           (mkPrediction 1 1 1 2 500)
           [mkPrediction 2 1 1 1 600; mkPrediction 3 1 1 1 300]).
  - reflexivity.
  - repeat constructor.
Defined.

(** An image with no prediction: [None] on Django up to 4.1; from 4.2 on
    the accessor raises even then. *)
Theorem specie_without_predictions (d : Database) (image : SubmittedImage) :
  qs_rows (prediction_set d image) = [] ->
  specie DjangoLegacy d image = Ok None /\
  specie Django42 d image = Raise TypeError.
Proof.
  intros Hrows. unfold specie, first. simpl in *.
  split; [|reflexivity].
  unfold evaluate_qs, groups, sort_groups. simpl. rewrite Hrows. reflexivity.
Qed.

Lemma specie_without_predictions_witness :
  specie DjangoLegacy three_predictions_db image_b = Ok None /\
  specie Django42 three_predictions_db image_b = Raise TypeError.
Proof.
  apply (specie_without_predictions three_predictions_db image_b).
  reflexivity.
Defined.

Lemma pk_ascending_app_l (ps more : list Prediction) :
  pk_ascending (ps ++ more) -> pk_ascending ps.
Proof.
  unfold pk_ascending. induction ps as [|p ps IH]; simpl; [constructor|].
  intros H. apply StronglySorted_inv in H as [Hs Hf].
  constructor; [exact (IH Hs)|].
  apply Forall_app in Hf as [Hf _]. exact Hf.
Qed.

(** On Django up to 4.1 later predictions never change the answer: once an
    image has a prediction, whatever is stored after it, for any species
    and with any confidence, leaves the accessor's answer as it was. *)
Theorem specie_ignores_later_predictions (d d' : Database)
    (image : SubmittedImage) (p : Prediction) (rest more : list Prediction) :
  qs_rows (prediction_set d image) = p :: rest ->
  qs_rows (prediction_set d' image) = p :: rest ++ more ->
  pk_ascending (p :: rest ++ more) ->
  specie DjangoLegacy d' image = specie DjangoLegacy d image.
Proof.
  intros Hd Hd' Hasc.
  assert (Hasc0 : pk_ascending (p :: rest))
    by (apply (pk_ascending_app_l (p :: rest) more); exact Hasc).
  unfold specie, first. simpl in *. f_equal.
  change (head (evaluate_qs
            (order_by [ColPk]
               (annotate_sum_confidence
                  (values [ColSpecie]
                     (mkQuerySet
                        (filter (fun q => prediction_image q = image_pk image)
                                (predictions d')) None false [])))))
          = head (evaluate_qs
            (order_by [ColPk]
               (annotate_sum_confidence
                  (values [ColSpecie]
                     (mkQuerySet
                        (filter (fun q => prediction_image q = image_pk image)
                                (predictions d)) None false [])))))).
  rewrite Hd, Hd'. rewrite !evaluate_by_pk by assumption. reflexivity.
Qed.

Lemma specie_ignores_later_predictions_witness :
  specie DjangoLegacy three_predictions_db image_a
  = specie DjangoLegacy
      (mkDatabase [] [] [mkPrediction 1 1 1 2 500] []) image_a.
Proof.
  apply (specie_ignores_later_predictions
           (mkDatabase [] [] [mkPrediction 1 1 1 2 500] [])
           three_predictions_db image_a (mkPrediction 1 1 1 2 500) []
           [mkPrediction 2 1 1 1 600; mkPrediction 3 1 1 1 300]).
  - reflexivity.
  - reflexivity.
  - repeat constructor.
Defined.

(** ** Weight directories do not collide *)

Section Paths.

Local Abbreviation plain := (Forall (fun c : N => c <> 95%N)).

Lemma lit_inj (s s' : string) : lit s = lit s' -> s = s'.
Proof.
  unfold lit. intros H.
  rewrite <- (string_of_list_ascii_of_string s),
          <- (string_of_list_ascii_of_string s').
  f_equal. revert H.
  generalize (list_ascii_of_string s) (list_ascii_of_string s').
  induction l as [|a l IH]; intros [|b l']; simpl; try discriminate.
  - reflexivity.
  - intros [= Hab Hl]. f_equal; [|exact (IH l' Hl)].
    rewrite <- (ascii_N_embedding a), <- (ascii_N_embedding b), Hab.
    reflexivity.
Qed.

(** [str] of an [int] determines it. *)
Lemma of_int_inj (a b : Z) : of_int a = of_int b -> a = b.
Proof.
  unfold of_int. intros H. apply lit_inj in H.
  apply DecimalZ.to_int_inj.
  assert (E : Some (Z.to_int a) = Some (Z.to_int b)).
  { rewrite <- (NilEmpty.isi (Z.to_int a)), <- (NilEmpty.isi (Z.to_int b)), H.
    reflexivity. }
  injection E as E. exact E.
Qed.

Lemma string_of_uint_plain (d : Decimal.uint) :
  plain (lit (NilEmpty.string_of_uint d)).
Proof.
  induction d; simpl; constructor; (discriminate || assumption).
Qed.

(** The decimal text of an [int] has no underscore. *)
Lemma of_int_plain (n : Z) : plain (of_int n).
Proof.
  unfold of_int. destruct (Z.to_int n) as [d|d]; simpl.
  - apply string_of_uint_plain.
  - constructor; [discriminate|apply string_of_uint_plain].
Qed.

Lemma field_prefix_inj (x x' y y' : str) :
  plain x -> plain x' -> x ++ 95%N :: y = x' ++ 95%N :: y' ->
  x = x' /\ y = y'.
Proof.
  intros Hx. revert x'. induction Hx as [|c x Hc _ IH]; intros x' Hx' E.
  - destruct Hx' as [|c' x' Hc' _]; simpl in E.
    + injection E as E. split; [reflexivity|exact E].
    + injection E as E _. congruence.
  - destruct Hx' as [|c' x' Hc' Hx']; simpl in E.
    + injection E as E _. congruence.
    + injection E as -> E. destruct (IH x' Hx' E) as [-> ->].
      split; reflexivity.
Qed.

(** The text after the last underscore, when it has none itself, and the
    text before it are determined by the whole. *)
Lemma last_field_inj (a a' f f' : str) :
  plain f -> plain f' -> a ++ 95%N :: f = a' ++ 95%N :: f' ->
  a = a' /\ f = f'.
Proof.
  intros Hf Hf' E. apply (f_equal (@rev N)) in E.
  rewrite !rev_app_distr in E. simpl in E. rewrite <- !app_assoc in E.
  simpl in E.
  apply field_prefix_inj in E as [E1 E2];
    [|apply Forall_rev; assumption|apply Forall_rev; assumption].
  split.
  - rewrite <- (rev_involutive a), <- (rev_involutive a'), E2. reflexivity.
  - rewrite <- (rev_involutive f), <- (rev_involutive f'), E1. reflexivity.
Qed.

Lemma weights_dirname_fields (n : str) (d : DateTime) :
  weights_dirname n d
  = (((n ++ 95%N :: of_int (year d)) ++ 95%N :: of_int (month d))
       ++ 95%N :: of_int (day d)) ++ 95%N :: of_int (hour d).
Proof.
  unfold weights_dirname. change (lit "_") with [95%N].
  rewrite <- !app_assoc. reflexivity.
Qed.

(** The directory name determines the architecture name and the year,
    month, day and hour: an underscore or a digit inside the name cannot
    make two different classifiers share a directory name. *)
Theorem weights_dirname_inj (n n' : str) (d d' : DateTime) :
  weights_dirname n d = weights_dirname n' d' -> n = n' /\ d = d'.
Proof.
  rewrite !weights_dirname_fields. intros E.
  apply last_field_inj in E as [E Hh]; [|apply of_int_plain..].
  apply last_field_inj in E as [E Hd]; [|apply of_int_plain..].
  apply last_field_inj in E as [E Hm]; [|apply of_int_plain..].
  apply last_field_inj in E as [E Hy]; [|apply of_int_plain..].
  split; [exact E|].
  apply of_int_inj in Hh, Hd, Hm, Hy.
  destruct d, d'. simpl in *. congruence.
Qed.

(** Two weight paths under one root, for architecture names that do not
    start with ['/'], are equal only for the same name and the same year,
    month, day and hour. *)
Theorem weights_path_inj (root n n' : str) (d d' : DateTime) :
  startswith (lit "/") n = false ->
  startswith (lit "/") n' = false ->
  weights_path root n d = weights_path root n' d' ->
  n = n' /\ d = d'.
Proof.
  intros Hn Hn'.
  rewrite (weights_path_under_root root n d Hn).
  rewrite (weights_path_under_root root n' d' Hn').
  intros E. apply app_inv_head in E. apply app_inv_head in E.
  apply weights_dirname_inj. exact E.
Qed.

End Paths.

Lemma weights_dirname_inj_witness :
  lit "GoogLeNet" = lit "GoogLeNet" /\ pi_day = pi_day.
Proof.
  exact (weights_dirname_inj (lit "GoogLeNet") (lit "GoogLeNet") pi_day pi_day
           eq_refl).
Defined.

Lemma weights_path_inj_witness :
  lit "GoogLeNet" = lit "GoogLeNet" /\ pi_day = pi_day.
Proof.
  exact (weights_path_inj (lit "/srv/media") (lit "GoogLeNet")
           (lit "GoogLeNet") pi_day pi_day eq_refl eq_refl eq_refl).
Defined.

(** ** [Taxon.__str__] *)

Section TaxonStr.

Variable taxa : gmap Z Taxon.

Lemma join_snoc (sep : str) (parts : list str) (p : str) :
  parts <> [] -> join sep (parts ++ [p]) = join sep parts ++ sep ++ p.
Proof.
  induction parts as [|q parts IH]; [contradiction|]. intros _.
  destruct parts as [|q' parts]; [reflexivity|].
  change (join sep ((q :: q' :: parts) ++ [p]))
    with (q ++ sep ++ join sep ((q' :: parts) ++ [p])).
  rewrite IH by discriminate.
  change (join sep (q :: q' :: parts)) with (q ++ sep ++ join sep (q' :: parts)).
  rewrite <- !app_assoc. reflexivity.
Qed.

Lemma Lineage_nonempty (t : Taxon) (l : list Taxon) :
  Lineage taxa t l -> l <> [].
Proof. destruct 1; [discriminate|]. destruct l; discriminate. Qed.

(** For a taxon with a finite line of ancestors, all with a clean name,
    and a recursion limit not below their number, [str] is the clean names
    from the root down, joined by [" > "]. *)
Theorem taxon_str_lineage (t : Taxon) (l : list Taxon) (names : list str)
    (depth : nat) :
  Lineage taxa t l ->
  Forall2 (fun a n => clean_name a = Ok n) l names ->
  (length l <= depth)%nat ->
  taxon_str taxa depth t = Ok (join (lit " > ") names).
Proof.
  intros HL. revert names depth.
  induction HL as [t Hroot|t k p l Hsup Hp HL IH]; intros names depth Hn Hd.
  - apply Forall2_cons_inv_l in Hn as (n & names' & Hc & Hnil & ->).
    apply Forall2_nil_inv_l in Hnil as ->.
    destruct depth as [|depth]; [simpl in Hd; lia|].
    simpl. rewrite Hroot. exact Hc.
  - apply Forall2_app_inv_l in Hn as (ns & last & Hns & Hlast & ->).
    apply Forall2_cons_inv_l in Hlast as (n & nil' & Hc & Hnil & ->).
    apply Forall2_nil_inv_l in Hnil as ->.
    rewrite length_app in Hd. simpl in Hd.
    destruct depth as [|depth]; [lia|].
    simpl. rewrite Hsup, Hp.
    rewrite (IH ns depth Hns) by lia. rewrite Hc.
    rewrite join_snoc; [reflexivity|].
    apply Forall2_length in Hns. pose proof (Lineage_nonempty p l HL).
    destruct l; [contradiction|]. destruct ns; discriminate.
Qed.

(** Under the same conditions on the line and the limit, [str] returns or
    raises [IndexError]. *)
Lemma taxon_str_lineage_outcome (t : Taxon) (l : list Taxon) (depth : nat) :
  Lineage taxa t l -> (length l <= depth)%nat ->
  returns (taxon_str taxa depth t) \/ taxon_str taxa depth t = Raise IndexError.
Proof.
  intros HL. revert depth.
  assert (Hclean : forall a, returns (clean_name a)
                             \/ clean_name a = Raise IndexError).
  { intros a. unfold clean_name, returns.
    destruct (negb _); [|eauto].
    destruct (split (name a)); simpl; eauto. }
  induction HL as [t Hroot|t k p l Hsup Hp HL IH]; intros depth Hd.
  - destruct depth as [|depth]; [simpl in Hd; lia|].
    simpl. rewrite Hroot. apply Hclean.
  - rewrite length_app in Hd. simpl in Hd.
    destruct depth as [|depth]; [lia|].
    simpl. rewrite Hsup, Hp.
    destruct (IH depth) as [[s ->]| ->]; [lia| |right; reflexivity].
    destruct (Hclean t) as [[c ->]| ->]; [left; eexists|right]; reflexivity.
Qed.

(** One taxon of the line without a clean name (a blank name, for a rank
    other than 8) makes [str] of the taxon raise [IndexError]. *)
Theorem taxon_str_blank_ancestor (t : Taxon) (l : list Taxon) (depth : nat) :
  Lineage taxa t l ->
  Exists (fun a => clean_name a = Raise IndexError) l ->
  (length l <= depth)%nat ->
  taxon_str taxa depth t = Raise IndexError.
Proof.
  intros HL. revert depth.
  induction HL as [t Hroot|t k p l Hsup Hp HL IH]; intros depth Hex Hd.
  - apply Exists_cons in Hex as [Hc|Hex]; [|inversion Hex].
    destruct depth as [|depth]; [simpl in Hd; lia|].
    simpl. rewrite Hroot. exact Hc.
  - rewrite length_app in Hd. simpl in Hd.
    destruct depth as [|depth]; [lia|].
    simpl. rewrite Hsup, Hp.
    apply Exists_app in Hex as [Hex|Hex].
    + rewrite (IH depth Hex) by lia. reflexivity.
    + apply Exists_cons in Hex as [Hc|Hex]; [|inversion Hex].
      destruct (taxon_str_lineage_outcome p l depth HL) as [[s ->]| ->];
        [lia| |reflexivity].
      rewrite Hc. reflexivity.
Qed.

(** When the parent chain never ends, as in a cycle, [str] does not
    return, whatever the recursion limit: nothing in the code rules out a
    taxon among its own ancestors. *)
Theorem taxon_str_endless (P : Taxon -> Prop) (t : Taxon) (depth : nat) :
  (forall a, P a ->
     exists k p, sup_taxon a = Some k /\ taxa !! k = Some p /\ P p) ->
  P t ->
  taxon_str taxa depth t = Raise (LibraryError 0).
Proof.
  intros Hclosed. revert t. induction depth as [|depth IH]; intros t Ht.
  - reflexivity.
  - destruct (Hclosed t Ht) as (k & p & Hsup & Hp & HPp).
    simpl. rewrite Hsup, Hp, (IH p HPp). reflexivity.
Qed.

End TaxonStr.

Lemma taxon_str_lineage_witness :
  taxon_str hominid_table 1000 sapiens
  = Ok (lit "Hominidae > Homo > Homo sapiens").
Proof.
  assert (HL : Lineage hominid_table sapiens [hominidae; homo; sapiens]).
  { apply (Lineage_child hominid_table sapiens 3 homo [hominidae; homo]);
      [reflexivity|vm_compute; reflexivity|].
    apply (Lineage_child hominid_table homo 2 hominidae [hominidae]);
      [reflexivity|vm_compute; reflexivity|].
    apply Lineage_root. reflexivity. }
  apply (taxon_str_lineage hominid_table sapiens _
           [lit "Hominidae"; lit "Homo"; lit "Homo sapiens"] 1000 HL).
  - repeat constructor.
  - simpl. lia.
Defined.

Lemma taxon_str_blank_ancestor_witness :
  taxon_str (<[2 := blank_genus]> ∅) 1000
    (mkTaxon None (lit "Homo") (Some 2) genus_rank)
  = Raise IndexError.
Proof.
  apply (taxon_str_blank_ancestor (<[2 := blank_genus]> ∅) _
           [blank_genus; mkTaxon None (lit "Homo") (Some 2) genus_rank]).
  - apply (Lineage_child _ _ 2 blank_genus [blank_genus]);
      [reflexivity|vm_compute; reflexivity|].
    apply Lineage_root. reflexivity.
  - left. vm_compute. reflexivity.
  - simpl. lia.
Defined.

Lemma taxon_str_endless_witness :
  taxon_str (<[9 := ouroboros]> ∅) 1000 ouroboros = Raise (LibraryError 0).
Proof.
  apply (taxon_str_endless (<[9 := ouroboros]> ∅) (fun a => a = ouroboros)).
  - intros a ->. exists 9, ouroboros.
    split; [reflexivity|]. split; [vm_compute; reflexivity|reflexivity].
  - reflexivity.
Defined.

